(** * build_colab.py: the Colab wheel-build script, embedded and verified

    The script is sequential glue code: it inspects the host, calls pip
    once per build dependency, cleans the working directory, calls
    [setup.py bdist_wheel] and copies the wheels it finds in [dist/] to
    the caller's output directory.

    The embedding keeps the script's shape.  Every function of the source
    is a computation in a state-and-exception monad over a [World]: the
    file system, the heap of dictionary objects (with [os.environ] at a
    fixed address) and the trace of side effects.  What lies outside the
    script (the installed modules, the interpreter path, the behaviour of
    the child processes) is a [Host] the definitions are parameterised by.

    Modelling bounds: no symbolic links, no permission errors, a single
    process touching the file system while the script's own statements
    run (child processes transform it arbitrarily when they are called). *)

From Stdlib Require Import Strings.Byte Strings.Ascii Strings.String.
From stdpp Require Import base strings list gmap fin_maps pretty.

Local Open Scope string_scope.
Local Open Scope list_scope.

(** ** Pure paths (pathlib.PurePosixPath) *)

(** A pure path is an optional root and the list of its components. *)
Record PurePath := MkPath { anchored : bool; parts : list string }.

(** Splitting on ['/']: [cur] holds the component being read. *)
Fixpoint split_slash (s : string) (cur : string) : list string :=
  match s with
  | EmptyString => [cur]
  | String c s' =>
      if Ascii.eqb c "/"%char then cur :: split_slash s' ""
      else split_slash s' (cur +:+ String c "")
  end.

(** [Path(s)]: empty components and ["."] are dropped, [".."] is kept;
    any run of leading slashes is read as the root. *)
Definition Path (s : string) : PurePath :=
  {| anchored := match s with String c _ => Ascii.eqb c "/"%char | _ => false end;
     parts := filter (λ c, c ≠ "" ∧ c ≠ ".") (split_slash s "") |}.

(** [str(p)] *)
Definition path_str (p : PurePath) : string :=
  match anchored p, parts p with
  | false, [] => "."
  | false, ps => String.concat "/" ps
  | true, ps => "/" +:+ String.concat "/" ps
  end.

(** [p.name]: the final component, if any. *)
Definition path_name (p : PurePath) : string := default "" (last (parts p)).

(** [p / name] for a relative right operand. *)
Definition joinpath (p : PurePath) (q : PurePath) : PurePath :=
  if anchored q then q
  else {| anchored := anchored p; parts := parts p ++ parts q |}.

(** ** The file system *)

(** Resolved locations are the component lists from the root. *)
Abbreviation location := (list string).

(** What a location holds: a regular file (contents, and the metadata
    [copystat] transfers), a directory, or something else (FIFO, socket,
    device), for which both [is_dir()] and [is_file()] are false. *)
Inductive node :=
  | File (data : list byte) (meta : N)
  | Dir
  | Other.

Abbreviation FS := (gmap location node).

Inductive errno := ENOENT | EEXIST | ENOTDIR | EISDIR | ESPECIAL.

Definition node_is_dir (o : option node) : bool :=
  match o with Some Dir => true | _ => false end.
Definition node_is_file (o : option node) : bool :=
  match o with Some (File _ _) => true | _ => false end.

(** The root always exists. *)
Definition lookup_loc (fs : FS) (l : location) : option node :=
  match l with [] => Some Dir | _ => fs !! l end.

(** One step of name resolution from directory [cur]. *)
Definition step_loc (cur : location) (c : string) : location :=
  if decide (c = "..") then removelast cur else cur ++ [c].

(** Name resolution (the kernel's [namei]): every component is looked up
    in a directory that must exist; the location the last component names
    is returned whether or not something is there. *)
Fixpoint walk (fs : FS) (cur : location) (cs : list string) : errno + location :=
  match cs with
  | [] => inr cur
  | c :: cs' =>
      match lookup_loc fs cur with
      | Some Dir => walk fs (step_loc cur c) cs'
      | Some _ => inl ENOTDIR
      | None => inl ENOENT
      end
  end.

Definition namei (fs : FS) (cwd : location) (p : PurePath) : errno + location :=
  walk fs (if anchored p then [] else cwd) (parts p).

(** [os.stat(p)] *)
Definition stat (fs : FS) (cwd : location) (p : PurePath) : errno + node :=
  match namei fs cwd p with
  | inl e => inl e
  | inr l => match lookup_loc fs l with Some n => inr n | None => inl ENOENT end
  end.

(** [p.is_dir()] and [p.is_file()]: false when [stat] fails. *)
Definition fs_is_dir (fs : FS) (cwd : location) (p : PurePath) : bool :=
  match stat fs cwd p with inr Dir => true | _ => false end.
Definition fs_is_file (fs : FS) (cwd : location) (p : PurePath) : bool :=
  match stat fs cwd p with inr (File _ _) => true | _ => false end.

(** [os.mkdir(p)] *)
Definition os_mkdir (fs : FS) (cwd : location) (p : PurePath) : errno + FS :=
  match namei fs cwd p with
  | inl e => inl e
  | inr l =>
      match lookup_loc fs l with
      | Some _ => inl EEXIST
      | None => inr (<[l := Dir]> fs)
      end
  end.

(** [Path.mkdir(parents=True, exist_ok=True)], on the reversed components:
    try [os.mkdir]; on ENOENT make the parent the same way and try again;
    on any other error succeed only if the path is a directory already. *)
Definition mkdir_leaf (fs : FS) (cwd : location) (p : PurePath) : errno + FS :=
  match os_mkdir fs cwd p with
  | inr fs' => inr fs'
  | inl e => if fs_is_dir fs cwd p then inr fs else inl e
  end.

Fixpoint mkdir_parents_rev (fs : FS) (cwd : location) (anch : bool)
    (rparts : list string) : errno + FS :=
  let p := {| anchored := anch; parts := rev rparts |} in
  match os_mkdir fs cwd p with
  | inr fs' => inr fs'
  | inl ENOENT =>
      match rparts with
      | [] => inl ENOENT
      | _ :: rparent =>
          match mkdir_parents_rev fs cwd anch rparent with
          | inl e => inl e
          | inr fs' => mkdir_leaf fs' cwd p
          end
      end
  | inl e => if fs_is_dir fs cwd p then inr fs else inl e
  end.

Definition mkdir_parents (fs : FS) (cwd : location) (p : PurePath) : errno + FS :=
  mkdir_parents_rev fs cwd (anchored p) (rev (parts p)).

(** Shell-style matching of one name, for patterns made of literal
    characters and ['*'] (the only forms the script uses). *)
Fixpoint fnmatch_chars (pat name : list ascii) : bool :=
  match pat with
  | [] => match name with [] => true | _ => false end
  | c :: pat' =>
      if Ascii.eqb c "*"%char then
        (fix star (n : list ascii) : bool :=
           fnmatch_chars pat' n ||
           match n with [] => false | _ :: n' => star n' end) name
      else
        match name with
        | [] => false
        | d :: name' => Ascii.eqb c d && fnmatch_chars pat' name'
        end
  end.

Definition fnmatch (pat name : string) : bool :=
  fnmatch_chars (list_ascii_of_string pat) (list_ascii_of_string name).

(** The name under which [l] is an entry of directory [d], if it is one. *)
Definition child_name (d l : location) : option string :=
  match last l with
  | Some n => if decide (l = d ++ [n]) then Some n else None
  | None => None
  end.

(** [os.scandir(d)]: the names of the entries of [d], in the order the
    file system lists them (here the map's own order). *)
Definition listdir (fs : FS) (d : location) : list string :=
  omap (child_name d) (map_to_list fs).*1.

(** [p.glob(pat)] for a one-component pattern: the entries of [p] whose
    name matches, as paths below [p]; nothing when [p] is no directory. *)
Definition glob (fs : FS) (cwd : location) (p : PurePath) (pat : string)
    : list PurePath :=
  match namei fs cwd p with
  | inr d =>
      if node_is_dir (lookup_loc fs d) then
        (λ n, joinpath p (MkPath false [n])) <$> filter (λ n, fnmatch pat n = true) (listdir fs d)
      else []
  | inl _ => []
  end.

(** [shutil.rmtree]: the directory and everything below it. *)
Definition rmtree_loc (fs : FS) (l : location) : FS :=
  filter (λ kv, ¬ l `prefix_of` kv.1) fs.

(** ** Worlds, exceptions and the side-effect trace *)

Abbreviation Env := (gmap string string).

(** The Python exceptions that can arise in the script. *)
Inductive exn :=
  | SystemExit (code : Z)
  | ImportError (module : string)
  | CalledProcessError (returncode : Z) (cmd : list string)
  | OSError (e : errno)
  | SameFileError
  | IndexError.

(** The side effects, in the order they happen.  A file-system event is
    logged when the operation has taken effect. *)
Inductive event :=
  | EvPrint (line : string)
  | EvSpawn (cmd : list string) (env : Env) (returncode : Z)
  | EvMkdir (p : PurePath)
  | EvRmtree (p : PurePath)
  | EvUnlink (p : PurePath)
  | EvCopy (src dst : PurePath).

(** The mutable state: the file system, the heap of dictionary objects
    and the trace. *)
Record World := MkWorld {
  fs : FS;
  dicts : gmap nat Env;
  trace : list event;
}.

Definition set_fs (f : FS) (w : World) : World :=
  {| fs := f; dicts := dicts w; trace := trace w |}.
Definition set_dicts (d : gmap nat Env) (w : World) : World :=
  {| fs := fs w; dicts := d; trace := trace w |}.
Definition log (e : event) (w : World) : World :=
  {| fs := fs w; dicts := dicts w; trace := trace w ++ [e] |}.

(** [os.environ] is the dictionary object at this address; a child
    process started without [env=] inherits its contents. *)
Definition os_environ : nat := 0.
Definition environ (w : World) : Env := default ∅ (dicts w !! os_environ).

(** [import torch] gives the version string and, when
    [torch.cuda.is_available()], [torch.version.cuda] and the name of
    device 0. *)
Record Torch := MkTorch {
  torch_version : string;
  torch_cuda : option (string * string);
}.

(** What the script finds around it and does not change. *)
Record Host := MkHost {
  sys_argv : list string;
  sys_executable : string;
  version_info : nat * nat * nat;
  has_google_colab : bool;
  torch : option Torch;
  getcwd : location;
  (** a child process: exit status and the file system it leaves *)
  run_process : list string → Env → FS → Z * FS;
  (** [f"{size / (1024*1024):.2f}"], a floating-point rendering *)
  format_mb : N → string;
  (** [st_size] of a directory or special node *)
  special_st_size : N;
}.

(** ** The monad *)

Inductive result (A : Type) :=
  | Return (a : A)
  | Raise (e : exn).
Arguments Return {A} a.
Arguments Raise {A} e.

Definition M (A : Type) : Type := World → result A * World.

Definition ret {A} (a : A) : M A := λ w, (Return a, w).
Definition raise {A} (e : exn) : M A := λ w, (Raise e, w).
Definition bind {A B} (m : M A) (k : A → M B) : M B := λ w,
  match m w with
  | (Return a, w') => k a w'
  | (Raise e, w') => (Raise e, w')
  end.

#[global] Instance M_ret : MRet M := @ret.
#[global] Instance M_bind : MBind M := λ A B k m, bind m k.

(** [try: body / except <the exceptions handler accepts>: ...] *)
Definition try_except {A} (body : M A) (handler : exn → option (M A)) : M A := λ w,
  match body w with
  | (Raise e, w') =>
      match handler e with
      | Some h => h w'
      | None => (Raise e, w')
      end
  | r => r
  end.

(** [for x in l: body] *)
Fixpoint for_each {A} (l : list A) (body : A → M unit) : M unit :=
  match l with
  | [] => ret tt
  | x :: l' => body x ;; for_each l' body
  end.

(** The status the interpreter exits with: 0 on normal completion, the
    code of [sys.exit], 1 after the traceback of any other exception. *)
Definition exit_status {A} (r : result A) : Z :=
  match r with
  | Return _ => 0
  | Raise (SystemExit c) => c
  | Raise _ => 1
  end.

Definition nl : string := String (ascii_of_nat 10) "".

Fixpoint str_repeat (s : string) (n : nat) : string :=
  match n with O => "" | S n' => s +:+ str_repeat s n' end.

(** ** Primitives *)

Section Primitives.
Context (host : Host).

Definition print (s : string) : M unit := λ w, (Return tt, log (EvPrint s) w).

Definition sys_exit {A} (code : Z) : M A := raise (SystemExit code).

Definition import_google_colab : M unit :=
  if has_google_colab host then ret tt else raise (ImportError "google.colab").

Definition import_torch : M Torch :=
  match torch host with
  | Some t => ret t
  | None => raise (ImportError "torch")
  end.

(** [os.environ.get(k)] *)
Definition environ_get (k : string) : M (option string) := λ w,
  (Return (environ w !! k), w).

(** [os.environ.copy()]: a new dictionary object with the same items. *)
Definition environ_copy : M nat := λ w,
  let r := fresh ({[os_environ]} ∪ dom (dicts w)) in
  (Return r, set_dicts (<[r := environ w]> (dicts w)) w).

(** [d[k] = v] *)
Definition dict_setitem (r : nat) (k v : string) : M unit := λ w,
  (Return tt, set_dicts (<[r := <[k := v]> (default ∅ (dicts w !! r))]> (dicts w)) w).

(** [subprocess.check_call(cmd, env=env)]: the child runs to completion
    on the current file system; a non-zero status raises. *)
Definition check_call (cmd : list string) (env : option nat) : M unit := λ w,
  let e := match env with
           | Some r => default ∅ (dicts w !! r)
           | None => environ w
           end in
  let out := run_process host cmd e (fs w) in
  let w' := log (EvSpawn cmd e out.1) (set_fs out.2 w) in
  if decide (out.1 = 0%Z) then (Return tt, w')
  else (Raise (CalledProcessError out.1 cmd), w').

(** [p.absolute()] *)
Definition absolute (p : PurePath) : PurePath :=
  joinpath (MkPath true (getcwd host)) p.

(** [p.mkdir(parents=True, exist_ok=True)] *)
Definition path_mkdir (p : PurePath) : M unit := λ w,
  match mkdir_parents (fs w) (getcwd host) p with
  | inr fs' => (Return tt, log (EvMkdir p) (set_fs fs' w))
  | inl e => (Raise (OSError e), w)
  end.

(** [list(p.glob(pat))] *)
Definition path_glob (p : PurePath) (pat : string) : M (list PurePath) := λ w,
  (Return (glob (fs w) (getcwd host) p pat), w).

Definition path_is_dir (p : PurePath) : M bool := λ w,
  (Return (fs_is_dir (fs w) (getcwd host) p), w).

Definition path_is_file (p : PurePath) : M bool := λ w,
  (Return (fs_is_file (fs w) (getcwd host) p), w).

(** [shutil.rmtree(p)] *)
Definition shutil_rmtree (p : PurePath) : M unit := λ w,
  match namei (fs w) (getcwd host) p with
  | inl e => (Raise (OSError e), w)
  | inr l =>
      match lookup_loc (fs w) l with
      | Some Dir => (Return tt, log (EvRmtree p) (set_fs (rmtree_loc (fs w) l) w))
      | Some _ => (Raise (OSError ENOTDIR), w)
      | None => (Raise (OSError ENOENT), w)
      end
  end.

(** [p.unlink()] *)
Definition path_unlink (p : PurePath) : M unit := λ w,
  match namei (fs w) (getcwd host) p with
  | inl e => (Raise (OSError e), w)
  | inr l =>
      match lookup_loc (fs w) l with
      | Some Dir => (Raise (OSError EISDIR), w)
      | Some _ => (Return tt, log (EvUnlink p) (set_fs (delete l (fs w)) w))
      | None => (Raise (OSError ENOENT), w)
      end
  end.

(** [os.path.samefile], with its [OSError] turned into [False]. *)
Definition samefile (f : FS) (a b : PurePath) : bool :=
  match namei f (getcwd host) a, namei f (getcwd host) b with
  | inr la, inr lb =>
      bool_decide (la = lb) && bool_decide (is_Some (lookup_loc f la))
  | _, _ => false
  end.

(** [shutil.copyfile(src, dst)] followed by [copystat]: the source is
    opened for reading, then the destination for writing. *)
Definition copyfile_stat (f : FS) (src dst : PurePath) : exn + FS :=
  if samefile f src dst then inl SameFileError
  else
    match stat f (getcwd host) src with
    | inl e => inl (OSError e)
    | inr Dir => inl (OSError EISDIR)
    | inr Other => inl (OSError ESPECIAL)
    | inr (File data meta) =>
        match namei f (getcwd host) dst with
        | inl e => inl (OSError e)
        | inr l =>
            match lookup_loc f l with
            | Some Dir => inl (OSError EISDIR)
            | Some Other => inl (OSError ESPECIAL)
            | _ => inr (<[l := File data meta]> f)
            end
        end
    end.

(** [shutil.copy2(src, dst)]: into [dst] when it is a directory. *)
Definition shutil_copy2 (src dst : PurePath) : M unit := λ w,
  let dst' :=
    if fs_is_dir (fs w) (getcwd host) dst
    then joinpath dst (Path (path_name src)) else dst in
  match copyfile_stat (fs w) src dst' with
  | inl e => (Raise e, w)
  | inr fs' => (Return tt, log (EvCopy src dst') (set_fs fs' w))
  end.

(** [p.stat().st_size] *)
Definition path_st_size (p : PurePath) : M N := λ w,
  match stat (fs w) (getcwd host) p with
  | inl e => (Raise (OSError e), w)
  | inr (File data _) => (Return (N.of_nat (length data)), w)
  | inr _ => (Return (special_st_size host), w)
  end.

End Primitives.

(** ** The script *)

Section Script.
Context (host : Host).

(** The module docstring, [__doc__]. *)
Definition __doc__ : string :=
  nl +:+
  "Build script for Google Colab A100 environment." +:+ nl +:+
  "Builds the block_sparse_attn wheel and saves it to Google Drive." +:+ nl +:+
  nl +:+
  "Usage in Colab:" +:+ nl +:+
  "    # Mount Google Drive" +:+ nl +:+
  "    from google.colab import drive" +:+ nl +:+
  "    drive.mount('/content/drive')" +:+ nl +:+
  "    " +:+ nl +:+
  "    # Run the build script" +:+ nl +:+
  "    !python build_colab.py /content/drive/MyDrive/path/to/wheels" +:+ nl.

Definition rule : string := str_repeat "=" 60.

Definition check_colab_environment : M unit :=
  print rule;;
  print "Checking Colab Environment";;
  print rule;;
  (* Check if in Colab *)
  try_except
    (import_google_colab host;;
     print "✓ Running in Google Colab")
    (λ e, match e with
          | ImportError _ => Some (print "⚠ Warning: Not running in Google Colab")
          | _ => None
          end);;
  (* Check Python version *)
  let python_version := version_info host in
  print ("✓ Python version: " +:+ pretty python_version.1.1 +:+ "." +:+
         pretty python_version.1.2 +:+ "." +:+ pretty python_version.2);;
  (* Check PyTorch *)
  try_except
    (t ← import_torch host;
     print ("✓ PyTorch version: " +:+ torch_version t);;
     match torch_cuda t with
     | Some (cuda, device) =>
         print ("✓ CUDA available: " +:+ cuda);;
         print ("✓ CUDA device: " +:+ device)
     | None => print "⚠ CUDA not available"
     end)
    (λ e, match e with
          | ImportError _ => Some (print "✗ PyTorch not installed";; sys_exit 1)
          | _ => None
          end);;
  (* Check CUDA_HOME *)
  cuda_home ← environ_get "CUDA_HOME";
  match cuda_home with
  | Some (String c s) => print ("✓ CUDA_HOME: " +:+ String c s)
  | _ => print "⚠ CUDA_HOME not set"
  end;;
  print "".

Definition dependencies : list string :=
  ["setuptools>=68.0.0"; "wheel"; "ninja"; "packaging"].

Definition pip_cmd (dep : string) : list string :=
  [sys_executable host; "-m"; "pip"; "install"; "--upgrade"; dep].

Definition install_build_dependencies : M unit :=
  print rule;;
  print "Installing Build Dependencies";;
  print rule;;
  for_each dependencies (λ dep,
    print ("Installing " +:+ dep +:+ "...");;
    check_call host (pip_cmd dep) None);;
  print ("✓ Build dependencies installed" +:+ nl).

Definition build_cmd : list string :=
  [sys_executable host; "setup.py"; "bdist_wheel"].

Definition force_build_flag : string := "FLASH_ATTENTION_FORCE_BUILD".

Definition cleanup_patterns : list string := ["build"; "dist"; "*.egg-info"].

Definition build_wheel (output_dir : string) : M string :=
  print rule;;
  print "Building Wheel";;
  print rule;;
  (* Ensure output directory exists *)
  let output_path := Path output_dir in
  path_mkdir host output_path;;
  print ("Output directory: " +:+ path_str (absolute host output_path));;
  (* Clean previous builds *)
  print "Cleaning previous builds...";;
  for_each cleanup_patterns (λ dir_name,
    paths ← path_glob host (Path ".") dir_name;
    for_each paths (λ path,
      is_d ← path_is_dir host path;
      if is_d : bool then
        shutil_rmtree host path;;
        print ("  Removed " +:+ path_str path)
      else
        is_f ← path_is_file host path;
        if is_f : bool then
          path_unlink host path;;
          print ("  Removed " +:+ path_str path)
        else ret tt));;
  (* Build the wheel *)
  print (nl +:+ "Building wheel...");;
  try_except
    ((* Set environment variable to force build *)
     env ← environ_copy;
     dict_setitem env force_build_flag "TRUE";;
     check_call host build_cmd (Some env);;
     (* Find the built wheel *)
     let dist_dir := Path "dist" in
     wheels ← path_glob host dist_dir "*.whl";
     match wheels with
     | [] => print "✗ No wheel file found in dist/";; sys_exit 1
     | _ => ret tt
     end;;
     (* Copy wheel to output directory *)
     for_each wheels (λ wheel,
       let dest := joinpath output_path (Path (path_name wheel)) in
       shutil_copy2 host wheel dest;;
       print ("✓ Built and saved: " +:+ path_str dest);;
       size ← path_st_size host dest;
       print ("  Size: " +:+ format_mb host size +:+ " MB"));;
     match wheels with
     | wheel0 :: _ => ret (path_name wheel0)
     | [] => raise IndexError
     end)
    (λ e, match e with
          | CalledProcessError returncode _ =>
              Some (print ("✗ Build failed with exit code " +:+ pretty returncode);;
                    sys_exit 1)
          | _ => None
          end).

Definition main : M unit :=
  (if decide (length (sys_argv host) < 2) then
     print __doc__;;
     print (nl +:+ "Error: Output directory not specified");;
     print "Usage: python build_colab.py <output_directory>";;
     sys_exit 1
   else ret tt);;
  output_dir ← match sys_argv host !! 1 with
               | Some a => ret a
               | None => raise IndexError
               end;
  print (nl +:+ rule);;
  print "Block Sparse Attention - Colab Build Script";;
  print (rule +:+ nl);;
  (* Check environment *)
  check_colab_environment;;
  (* Install dependencies *)
  install_build_dependencies;;
  (* Build wheel *)
  wheel_name ← build_wheel output_dir;
  print (nl +:+ rule);;
  print "Build Complete!";;
  print rule;;
  print (nl +:+ "Wheel saved to: " +:+ path_str (absolute host (Path output_dir))
            +:+ "/" +:+ wheel_name);;
  print (nl +:+ "To install the wheel:");;
  print ("  !pip install " +:+ path_str (absolute host (Path output_dir))
            +:+ "/" +:+ wheel_name);;
  print "".

End Script.

(** ** The phases of a run

    The claims speak of the moment the build is invoked.  The blocks
    below are the statements of [main] and [build_wheel] up to that
    moment and after it; [main_phases] and [build_wheel_phases] prove that
    the functions above are these blocks run in sequence. *)

Section Phases.
Context (host : Host).

(** [main], lines 140-156: the argument check, the banner, the
    environment check and the installation. *)
Definition startup : M string :=
  (if decide (length (sys_argv host) < 2) then
     print __doc__;;
     print (nl +:+ "Error: Output directory not specified");;
     print "Usage: python build_colab.py <output_directory>";;
     sys_exit 1
   else ret tt);;
  output_dir ← match sys_argv host !! 1 with
               | Some a => ret a
               | None => raise IndexError
               end;
  print (nl +:+ rule);;
  print "Block Sparse Attention - Colab Build Script";;
  print (rule +:+ nl);;
  check_colab_environment host;;
  install_build_dependencies host;;
  ret output_dir.

(** [main], lines 140-153: the run up to the installation. *)
Definition reach_install : M string :=
  (if decide (length (sys_argv host) < 2) then
     print __doc__;;
     print (nl +:+ "Error: Output directory not specified");;
     print "Usage: python build_colab.py <output_directory>";;
     sys_exit 1
   else ret tt);;
  output_dir ← match sys_argv host !! 1 with
               | Some a => ret a
               | None => raise IndexError
               end;
  print (nl +:+ rule);;
  print "Block Sparse Attention - Colab Build Script";;
  print (rule +:+ nl);;
  check_colab_environment host;;
  ret output_dir.

(** [install_build_dependencies], lines 75-77: the loop over the
    packages. *)
Definition install_each (deps : list string) : M unit :=
  for_each deps (λ dep,
    print ("Installing " +:+ dep +:+ "...");;
    check_call host (pip_cmd host dep) None).

(** [build_wheel], lines 97-102: the body of the cleanup loop. *)
Definition remove_entry (path : PurePath) : M unit :=
  is_d ← path_is_dir host path;
  if is_d : bool then
    shutil_rmtree host path;;
    print ("  Removed " +:+ path_str path)
  else
    is_f ← path_is_file host path;
    if is_f : bool then
      path_unlink host path;;
      print ("  Removed " +:+ path_str path)
    else ret tt.

(** [build_wheel], lines 95-102: the cleanup loop. *)
Definition clean_previous_builds : M unit :=
  for_each cleanup_patterns (λ dir_name,
    paths ← path_glob host (Path ".") dir_name;
    for_each paths remove_entry).

(** [build_wheel], lines 84-105: everything before the [try]. *)
Definition build_prologue (output_dir : string) : M PurePath :=
  print rule;;
  print "Building Wheel";;
  print rule;;
  path_mkdir host (Path output_dir);;
  print ("Output directory: " +:+ path_str (absolute host (Path output_dir)));;
  print "Cleaning previous builds...";;
  clean_previous_builds;;
  print (nl +:+ "Building wheel...");;
  ret (Path output_dir).

(** [build_wheel], lines 125-129: the copy loop. *)
Definition copy_wheels (output_path : PurePath) (wheels : list PurePath) : M unit :=
  for_each wheels (λ wheel,
    let dest := joinpath output_path (Path (path_name wheel)) in
    shutil_copy2 host wheel dest;;
    print ("✓ Built and saved: " +:+ path_str dest);;
    size ← path_st_size host dest;
    print ("  Size: " +:+ format_mb host size +:+ " MB")).

(** [build_wheel], lines 106-135: the [try] statement. *)
Definition build_attempt (output_path : PurePath) : M string :=
  try_except
    (env ← environ_copy;
     dict_setitem env force_build_flag "TRUE";;
     check_call host (build_cmd host) (Some env);;
     wheels ← path_glob host (Path "dist") "*.whl";
     match wheels with
     | [] => print "✗ No wheel file found in dist/";; sys_exit 1
     | _ => ret tt
     end;;
     copy_wheels output_path wheels;;
     match wheels with
     | wheel0 :: _ => ret (path_name wheel0)
     | [] => raise IndexError
     end)
    (λ e, match e with
          | CalledProcessError returncode _ =>
              Some (print ("✗ Build failed with exit code " +:+ pretty returncode);;
                    sys_exit 1)
          | _ => None
          end).

(** [main], lines 161-167: the completion report. *)
Definition report (output_dir wheel_name : string) : M unit :=
  print (nl +:+ rule);;
  print "Build Complete!";;
  print rule;;
  print (nl +:+ "Wheel saved to: " +:+ path_str (absolute host (Path output_dir))
            +:+ "/" +:+ wheel_name);;
  print (nl +:+ "To install the wheel:");;
  print ("  !pip install " +:+ path_str (absolute host (Path output_dir))
            +:+ "/" +:+ wheel_name);;
  print "".

(** The run up to the build invocation: the output directory is made,
    the working directory is cleaned, the child is not started yet. *)
Definition reach_build : M (string * PurePath) :=
  output_dir ← startup;
  output_path ← build_prologue output_dir;
  ret (output_dir, output_path).

End Phases.

(** * Vocabulary of the statements *)

(** [m] never leaves the relation [R] between the world it starts in and
    the world it ends in, whatever its outcome. *)
Definition preserves (R : relation World) {A} (m : M A) : Prop :=
  ∀ w, R w (m w).2.

(** No copy among the events. *)
Definition no_copy (evs : list event) : Prop :=
  ∀ src dst, EvCopy src dst ∉ evs.

(** ** Before the build is invoked *)

(** The events of that part of a run, in a process whose environment is
    [E]: output, changes to the file system, and pip children that
    inherit [E]; no copy and no build. *)
Definition pre_build_event (host : Host) (E : Env) (ev : event) : Prop :=
  match ev with
  | EvSpawn cmd env _ => env = E ∧ ∃ dep, dep ∈ dependencies ∧ cmd = pip_cmd host dep
  | EvCopy _ _ => False
  | _ => True
  end.

(** [w'] comes after [w] by such events alone, every dictionary as it was. *)
Definition quiet (host : Host) : relation World := λ w w',
  dicts w' = dicts w ∧
  ∃ evs, trace w' = trace w ++ evs ∧ Forall (pre_build_event host (environ w)) evs.

(** ** The build invocation *)

(** The environment the build child receives. *)
Definition build_env (w : World) : Env :=
  <[force_build_flag := "TRUE"]> (environ w).

(** What the build child returns when started in world [w]. *)
Definition build_outcome (host : Host) (w : World) : Z * FS :=
  run_process host (build_cmd host) (build_env w) (fs w).

(** The world in which the child has just returned. *)
Definition build_world (host : Host) (w : World) : World :=
  {| fs := (build_outcome host w).2;
     dicts := <[fresh ({[os_environ]} ∪ dom (dicts w)) := build_env w]> (dicts w);
     trace := trace w ++ [EvSpawn (build_cmd host) (build_env w) (build_outcome host w).1] |}.

(** The wheels the script finds once the child has returned. *)
Definition built_wheels (host : Host) (w : World) : list PurePath :=
  glob (fs (build_world host w)) (getcwd host) (Path "dist") "*.whl".

(** ** The file system *)

(** Every directory of [f] is a directory of [f']. *)
Definition dirs_kept (f f' : FS) : Prop :=
  ∀ l, lookup_loc f l = Some Dir → lookup_loc f' l = Some Dir.

(** A name one of the cleanup patterns matches. *)
Definition stale_name (n : string) : bool :=
  existsb (λ pat, fnmatch pat n) cleanup_patterns.

(** The entry [n] of the working directory, as [Path('.').glob] yields it. *)
Definition entry (n : string) : PurePath := joinpath (Path ".") (MkPath false [n]).

(** What the body of the cleanup loop does to the entry at [l]. *)
Definition remove_at (f : FS) (l : location) : FS :=
  match f !! l with
  | Some Dir => rmtree_loc f l
  | Some (File _ _) => delete l f
  | _ => f
  end.

(** Neither a directory nor a regular file is at [l]. *)
Definition gone (f : FS) (l : location) : Prop :=
  node_is_dir (f !! l) = false ∧ node_is_file (f !! l) = false.

(** ** Scenarios

    A checkout in [/content/repo] with leftovers of an earlier build, and
    children that behave as pip and [setup.py] do, or fail. *)

Definition repo : location := ["content"; "repo"].

Definition stale_fs : FS :=
  list_to_map
    [ (["content"], Dir);
      (repo, Dir);
      (repo ++ ["setup.py"], File [x23] 420%N);
      (repo ++ ["build"], Dir);
      (repo ++ ["build"; "temp.o"], File [x00; x01] 420%N);
      (repo ++ ["dist"], Dir);
      (repo ++ ["dist"; "old-0.0.whl"], File [x50; x4b; x00] 420%N);
      (repo ++ ["block_sparse_attn.egg-info"], Dir);
      (repo ++ ["notes.egg-info"], File [x21] 384%N) ].

Definition colab_world : World :=
  {| fs := stale_fs;
     dicts := {[ os_environ := {[ "CUDA_HOME" := "/usr/local/cuda" ]} ]};
     trace := [] |}.

(** The wheel [setup.py bdist_wheel] writes. *)
Definition wheel_file : node := File [x50; x4b; x03; x04] 420%N.

(** pip succeeds and changes nothing here; the build writes [build/],
    the egg-info directory and one wheel in [dist/]. *)
Definition healthy_child (cmd : list string) (env : Env) (f : FS) : Z * FS :=
  match cmd with
  | [_; "setup.py"; "bdist_wheel"] =>
      (0%Z, <[repo ++ ["dist"; "block_sparse_attn-0.0.1.whl"] := wheel_file]>
            (<[repo ++ ["dist"] := Dir]>
            (<[repo ++ ["block_sparse_attn.egg-info"] := Dir]>
            (<[repo ++ ["build"] := Dir]> f))))
  | _ => (0%Z, f)
  end.

(** The compiler fails: status 2, only [build/] is left behind. *)
Definition failing_build_child (cmd : list string) (env : Env) (f : FS) : Z * FS :=
  match cmd with
  | [_; "setup.py"; "bdist_wheel"] => (2%Z, <[repo ++ ["build"] := Dir]> f)
  | _ => (0%Z, f)
  end.

(** The build reports success and writes no wheel. *)
Definition silent_build_child (cmd : list string) (env : Env) (f : FS) : Z * FS :=
  match cmd with
  | [_; "setup.py"; "bdist_wheel"] => (0%Z, <[repo ++ ["build"] := Dir]> f)
  | _ => (0%Z, f)
  end.

(** pip cannot install ninja: status 1. *)
Definition failing_pip_child (cmd : list string) (env : Env) (f : FS) : Z * FS :=
  match cmd with
  | [_; "-m"; "pip"; "install"; "--upgrade"; "ninja"] => (1%Z, f)
  | _ => healthy_child cmd env f
  end.

Definition colab_host (argv : list string) (th : option Torch)
    (child : list string → Env → FS → Z * FS) : Host :=
  {| sys_argv := argv;
     sys_executable := "/usr/bin/python3";
     version_info := (3, 10, 12)%nat;
     has_google_colab := true;
     torch := th;
     getcwd := repo;
     run_process := child;
     format_mb := λ _, "0.00";
     special_st_size := 4096%N |}.

Definition a100_torch : Torch := MkTorch "2.1.0+cu121" (Some ("12.1", "NVIDIA A100-SXM4-40GB")).

Definition script_name : string := "build_colab.py".

(** ** The environment of the children *)

(** What claim C8 asks of an event, in a process whose environment is
    [E]: the build child receives [E] and the flag, nothing else changed;
    every other child receives [E] itself. *)
Definition child_env_ok (host : Host) (E : Env) (ev : event) : Prop :=
  match ev with
  | EvSpawn cmd env _ =>
      if decide (cmd = build_cmd host)
      then env = <[force_build_flag := "TRUE"]> E ∧
           env !! force_build_flag = Some "TRUE" ∧
           ∀ k, k ≠ force_build_flag → env !! k = E !! k
      else env = E
  | _ => True
  end.

(** [w'] comes after [w] with [os.environ] as it was and only such
    events in between. *)
Definition lawful (host : Host) : relation World := λ w w',
  environ w' = environ w ∧
  ∃ evs, trace w' = trace w ++ evs ∧ Forall (child_env_ok host (environ w)) evs.

(** ** Failing children *)

(** No event of [evs] is a child that failed. *)
Definition all_children_succeeded (evs : list event) : Prop :=
  Forall (λ ev, match ev with EvSpawn _ _ rc => rc = 0%Z | _ => True end) evs.

(** Claim C5 as the specification words it, for the run from [w]: every
    child that exits with a non-zero status has its failure caught (the
    run then ends by [sys.exit(1)]) and its status printed in a message. *)
Definition failures_caught_and_reported (host : Host) (w : World) : Prop :=
  ∀ cmd env rc,
    EvSpawn cmd env rc ∈ trace (main host w).2 → rc ≠ 0%Z →
    (main host w).1 = Raise (SystemExit 1) ∧
    ∃ msg, EvPrint (msg +:+ pretty rc) ∈ trace (main host w).2.

(** * Vocabulary of the further properties *)


(** An event that is output only. *)
Definition is_print (ev : event) : Prop :=
  match ev with EvPrint _ => True | _ => False end.

(** The lines of the completion report ([main], lines 161-167). *)
Definition report_lines (host : Host) (output_dir wheel_name : string) : list event :=
  [ EvPrint (nl +:+ rule);
    EvPrint "Build Complete!";
    EvPrint rule;
    EvPrint (nl +:+ "Wheel saved to: " +:+ path_str (absolute host (Path output_dir))
                +:+ "/" +:+ wheel_name);
    EvPrint (nl +:+ "To install the wheel:");
    EvPrint ("  !pip install " +:+ path_str (absolute host (Path output_dir))
                +:+ "/" +:+ wheel_name);
    EvPrint "" ].

(** The children started in a stretch of the trace, in the order they
    were started: command and exit status. *)
Definition spawned (evs : list event) : list (list string * Z) :=
  omap (λ ev, match ev with
              | EvSpawn cmd _ returncode => Some (cmd, returncode)
              | _ => None
              end) evs.

(** Commands that ran and exited 0. *)
Definition succeeded (cmds : list (list string)) : list (list string * Z) :=
  (λ cmd, (cmd, 0%Z)) <$> cmds.

(** The commands of a full run: lines 75-77, then line 112. *)
Definition script_commands (host : Host) : list (list string) :=
  (pip_cmd host <$> dependencies) ++ [build_cmd host].

(** [cs] is an initial part of [cmds], each command having exited 0
    except, possibly, the last one started. *)
Definition in_order (cmds : list (list string)) (cs : list (list string * Z)) : Prop :=
  ∃ ran rest,
    cmds = ran ++ rest ∧
    (cs = succeeded ran ∨
     ∃ cmd rest' returncode,
       rest = cmd :: rest' ∧ returncode ≠ 0%Z ∧
       cs = succeeded ran ++ [(cmd, returncode)]).

(** A stretch of a run that starts no child. *)
Definition spawnless : relation World := λ w w',
  ∃ evs, trace w' = trace w ++ evs ∧ spawned evs = [].

(** The location a path without ['..'] names, when it resolves. *)
Definition plain_location (host : Host) (p : PurePath) : location :=
  (if anchored p then [] else getcwd host) ++ parts p.

(** The exceptions that can leave [main]: [sys.exit(1)], the
    [CalledProcessError] of a pip command, and the errors of the file
    operations. *)
Definition may_escape (host : Host) (e : exn) : Prop :=
  match e with
  | SystemExit code => code = 1%Z
  | CalledProcessError returncode cmd =>
      returncode ≠ 0%Z ∧ ∃ dep, dep ∈ dependencies ∧ cmd = pip_cmd host dep
  | OSError _ | SameFileError => True
  | ImportError _ | IndexError => False
  end.

(** * Verification *)

(** ** Running the monad *)

Ltac unfold_monad :=
  unfold mbind, M_bind, bind, mret, M_ret, ret, raise, sys_exit.

(** Case analysis on the outcome of every computation that is run. *)
Ltac split_runs :=
  repeat match goal with
         | |- context [match ?m ?w with pair _ _ => _ end] =>
             destruct (m w) as [[?|?] ?]
         end.

Lemma bind_run {A B} (m : M A) (k : A → M B) (w : World) :
  (m ≫= k) w =
  match m w with
  | (Return a, w') => k a w'
  | (Raise e, w') => (Raise e, w')
  end.
Proof. reflexivity. Qed.

Lemma bind_return {A B} (m : M A) (k : A → M B) (w w' : World) (a : A) :
  m w = (Return a, w') → (m ≫= k) w = k a w'.
Proof. intros H. rewrite bind_run, H. reflexivity. Qed.

Lemma bind_raise {A B} (m : M A) (k : A → M B) (w w' : World) (e : exn) :
  m w = (Raise e, w') → (m ≫= k) w = (Raise e, w').
Proof. intros H. rewrite bind_run, H. reflexivity. Qed.

Lemma build_wheel_phases (host : Host) (output_dir : string) (w : World) :
  build_wheel host output_dir w =
  (p ← build_prologue host output_dir; build_attempt host p) w.
Proof.
  unfold build_wheel, build_prologue, build_attempt, copy_wheels,
    clean_previous_builds, remove_entry.
  unfold_monad. split_runs; reflexivity.
Qed.

Lemma main_phases (host : Host) (w : World) :
  main host w =
  (reached ← reach_build host;
   wheel_name ← build_attempt host reached.2;
   report host reached.1 wheel_name) w.
Proof.
  unfold main, reach_build, startup, report.
  unfold_monad.
  destruct (decide _); [reflexivity|].
  unfold print at 1. cbn.
  destruct (sys_argv host !! 1); [|reflexivity].
  unfold print. cbn [fst snd].
  destruct (check_colab_environment host _) as [[?|?] ?]; [|reflexivity].
  destruct (install_build_dependencies host _) as [[?|?] ?]; [|reflexivity].
  rewrite build_wheel_phases. unfold_monad.
  destruct (build_prologue host _ _) as [[?|?] ?]; reflexivity.
Qed.

(** ** Relations every statement of a phase preserves *)

Section Preserves.
Context (R : relation World) `{!PreOrder R}.

Lemma preserves_ret {A} (a : A) : preserves R (ret a).
Proof. intros w. reflexivity. Qed.

Lemma preserves_raise {A} (e : exn) : preserves R (raise (A:=A) e).
Proof. intros w. reflexivity. Qed.

Lemma preserves_bind {A B} (m : M A) (k : A → M B) :
  preserves R m → (∀ a, preserves R (k a)) → preserves R (m ≫= k).
Proof.
  intros Hm Hk w. rewrite bind_run. specialize (Hm w).
  destruct (m w) as [[a|e] w1]; cbn in *; [|done].
  etrans; [exact Hm|apply Hk].
Qed.

Lemma preserves_try {A} (body : M A) (handler : exn → option (M A)) :
  preserves R body →
  (∀ e h, handler e = Some h → preserves R h) →
  preserves R (try_except body handler).
Proof.
  intros Hb Hh w. unfold try_except. specialize (Hb w).
  destruct (body w) as [[a|e] w1]; cbn in *; [done|].
  destruct (handler e) as [h|] eqn:E; [|done].
  etrans; [exact Hb|]. eapply Hh, E.
Qed.

Lemma preserves_for_each {A} (l : list A) (body : A → M unit) :
  (∀ x, x ∈ l → preserves R (body x)) → preserves R (for_each l body).
Proof.
  induction l as [|x l IH]; intros Hb; cbn.
  - apply preserves_ret.
  - apply preserves_bind.
    + apply Hb. left.
    + intros _. apply IH. intros y Hy. apply Hb. by right.
Qed.

End Preserves.

(** ** What a run does before the build is invoked *)

#[global] Instance quiet_preorder (host : Host) : PreOrder (quiet host).
Proof.
  split.
  - intros w. split; [done|]. exists []. by rewrite app_nil_r.
  - intros w1 w2 w3 [Hd1 (e1 & Ht1 & Hf1)] [Hd2 (e2 & Ht2 & Hf2)].
    split; [congruence|]. exists (e1 ++ e2). split.
    + by rewrite Ht2, Ht1, app_assoc.
    + apply Forall_app. split; [done|].
      replace (environ w1) with (environ w2); [done|].
      unfold environ. by rewrite Hd1.
Qed.

Lemma quiet_log (host : Host) (w : World) (f : FS) (ev : event) :
  pre_build_event host (environ w) ev → quiet host w (log ev (set_fs f w)).
Proof. intros H. split; [done|]. exists [ev]. split; [done|]. by constructor. Qed.

Lemma quiet_log' (host : Host) (w : World) (ev : event) :
  pre_build_event host (environ w) ev → quiet host w (log ev w).
Proof. intros H. split; [done|]. exists [ev]. split; [done|]. by constructor. Qed.

Lemma preserves_print (host : Host) (s : string) : preserves (quiet host) (print s).
Proof. intros w. by apply quiet_log'. Qed.

Lemma preserves_pip (host : Host) (dep : string) :
  dep ∈ dependencies → preserves (quiet host) (check_call host (pip_cmd host dep) None).
Proof.
  intros Hdep w. unfold check_call.
  destruct (decide _); cbn; apply quiet_log; cbn; eauto.
Qed.

Lemma preserves_mkdir (host : Host) (p : PurePath) :
  preserves (quiet host) (path_mkdir host p).
Proof.
  intros w. unfold path_mkdir. destruct (mkdir_parents _ _ _); cbn.
  - reflexivity.
  - by apply quiet_log.
Qed.

Lemma preserves_rmtree (host : Host) (p : PurePath) :
  preserves (quiet host) (shutil_rmtree host p).
Proof.
  intros w. unfold shutil_rmtree.
  destruct (namei _ _ _); cbn; [reflexivity|].
  destruct (lookup_loc _ _) as [[]|]; cbn; try reflexivity. by apply quiet_log.
Qed.

Lemma preserves_unlink (host : Host) (p : PurePath) :
  preserves (quiet host) (path_unlink host p).
Proof.
  intros w. unfold path_unlink.
  destruct (namei _ _ _); cbn; [reflexivity|].
  destruct (lookup_loc _ _) as [[]|]; cbn; try reflexivity; by apply quiet_log.
Qed.

Lemma preserves_pure (host : Host) {A} (f : World → A) :
  preserves (quiet host) (λ w, (Return (f w), w)).
Proof. intros w. reflexivity. Qed.

Ltac preserves_step host :=
  first
    [ apply preserves_print
    | apply preserves_mkdir
    | apply preserves_rmtree
    | apply preserves_unlink
    | apply (preserves_pure host)
    | apply preserves_ret; apply _
    | apply preserves_raise; apply _
    | apply preserves_for_each; [apply _|intros ? ?]
    | apply preserves_try; [apply _| |intros ? ? ?]
    | apply preserves_bind; [apply _| |intros ?] ].

Lemma preserves_check (host : Host) :
  preserves (quiet host) (check_colab_environment host).
Proof.
  unfold check_colab_environment, import_google_colab, import_torch, environ_get, sys_exit.
  repeat (preserves_step host).
  all: repeat case_match; simplify_eq; repeat (preserves_step host).
Qed.

Lemma preserves_install (host : Host) :
  preserves (quiet host) (install_build_dependencies host).
Proof.
  unfold install_build_dependencies.
  repeat (preserves_step host). by apply preserves_pip.
Qed.

Lemma preserves_clean (host : Host) :
  preserves (quiet host) (clean_previous_builds host).
Proof.
  unfold clean_previous_builds, remove_entry, path_glob, path_is_dir, path_is_file.
  repeat (preserves_step host).
  all: repeat (repeat case_match; repeat (preserves_step host)).
Qed.

Lemma preserves_startup (host : Host) : preserves (quiet host) (startup host).
Proof.
  unfold startup, sys_exit.
  repeat first [ apply preserves_check | apply preserves_install | preserves_step host ].
  all: repeat case_match; repeat (preserves_step host).
Qed.

Lemma preserves_prologue (host : Host) (output_dir : string) :
  preserves (quiet host) (build_prologue host output_dir).
Proof.
  unfold build_prologue.
  repeat first [ apply preserves_clean | preserves_step host ].
Qed.

Lemma preserves_reach_build (host : Host) : preserves (quiet host) (reach_build host).
Proof.
  unfold reach_build.
  repeat first [ apply preserves_startup | apply preserves_prologue | preserves_step host ].
Qed.

(** ** The build attempt *)

Lemma invoke_build {B} (host : Host) (k : M B) (w : World) :
  (env ← environ_copy;
   dict_setitem env force_build_flag "TRUE";;
   check_call host (build_cmd host) (Some env);;
   k) w =
  if decide ((build_outcome host w).1 = 0%Z) then k (build_world host w)
  else (Raise (CalledProcessError (build_outcome host w).1 (build_cmd host)),
        build_world host w).
Proof.
  unfold_monad. unfold environ_copy, dict_setitem, check_call, set_dicts, set_fs, log.
  cbn [fst snd fs dicts trace].
  rewrite !lookup_insert_eq, insert_insert_eq. cbn [default].
  fold (build_env w). fold (build_outcome host w).
  fold (build_world host w).
  by destruct (decide _).
Qed.

Lemma copy_wheels_raises (host : Host) (p : PurePath) (wheels : list PurePath)
    (w w' : World) (e : exn) :
  copy_wheels host p wheels w = (Raise e, w') →
  match e with OSError _ | SameFileError => True | _ => False end.
Proof.
  revert w. induction wheels as [|wh whs IH]; intros w; cbn.
  - unfold_monad. congruence.
  - unfold copy_wheels in *. cbn. unfold_monad.
    unfold shutil_copy2. destruct (copyfile_stat _ _ _ _) as [e'|f'] eqn:Ec.
    + intros [= <- <-]. unfold copyfile_stat in Ec.
      repeat case_match; by simplify_eq.
    + unfold print, path_st_size. cbn [fst snd fs log set_fs].
      destruct (stat _ _ _) as [e'|[]] eqn:Es.
      * by intros [= <- <-].
      * apply IH.
      * apply IH.
      * apply IH.
Qed.

Lemma build_attempt_failed (host : Host) (p : PurePath) (w : World) :
  (build_outcome host w).1 ≠ 0%Z →
  build_attempt host p w =
  (Raise (SystemExit 1),
   log (EvPrint ("✗ Build failed with exit code " +:+ pretty (build_outcome host w).1))
       (build_world host w)).
Proof.
  intros Hrc. unfold build_attempt, try_except.
  rewrite invoke_build. by rewrite decide_False.
Qed.

Lemma build_attempt_no_wheel (host : Host) (p : PurePath) (w : World) :
  (build_outcome host w).1 = 0%Z →
  built_wheels host w = [] →
  build_attempt host p w =
  (Raise (SystemExit 1),
   log (EvPrint "✗ No wheel file found in dist/") (build_world host w)).
Proof.
  intros Hrc Hno. unfold build_attempt, try_except.
  rewrite invoke_build. rewrite decide_True by done.
  unfold_monad. unfold path_glob. cbn [fst snd]. fold (built_wheels host w).
  by rewrite Hno.
Qed.

Lemma build_attempt_copies (host : Host) (p : PurePath) (w : World)
    (wheel : PurePath) (wheels : list PurePath) :
  (build_outcome host w).1 = 0%Z →
  built_wheels host w = wheel :: wheels →
  build_attempt host p w =
  match copy_wheels host p (wheel :: wheels) (build_world host w) with
  | (Return _, w') => (Return (path_name wheel), w')
  | (Raise e, w') => (Raise e, w')
  end.
Proof.
  intros Hrc Hwh. unfold build_attempt, try_except.
  rewrite invoke_build. rewrite decide_True by done.
  unfold_monad. unfold path_glob. cbn [fst snd]. fold (built_wheels host w).
  rewrite Hwh. fold (copy_wheels host p (wheel :: wheels)).
  destruct (copy_wheels _ _ _ _) as [[[]|e] w'] eqn:Ec; [done|].
  apply copy_wheels_raises in Ec. by destruct e.
Qed.

(** ** The run as a whole *)

Lemma pre_build_no_copy (host : Host) (E : Env) (evs : list event) :
  Forall (pre_build_event host E) evs → no_copy evs.
Proof.
  intros Hf src dst Hin. rewrite Forall_forall in Hf. exact (Hf _ Hin).
Qed.

Lemma no_copy_app (evs1 evs2 : list event) :
  no_copy evs1 → no_copy evs2 → no_copy (evs1 ++ evs2).
Proof. intros H1 H2 src dst [?|?]%elem_of_app; [by eapply H1|by eapply H2]. Qed.

Lemma reach_build_quiet (host : Host) (w : World) :
  quiet host w (reach_build host w).2.
Proof. apply preserves_reach_build. Qed.

(** C6. With no command-line argument the script prints its docstring
    first, then the two usage lines, and exits with status 1; nothing
    else happens: the file system and the dictionaries are as before and
    the three lines are all it emits. *)
Theorem usage_when_no_argument (host : Host) (w : World) :
  length (sys_argv host) < 2 →
  main host w =
    (Raise (SystemExit 1),
     {| fs := fs w; dicts := dicts w;
        trace := trace w ++
          [EvPrint __doc__;
           EvPrint (nl +:+ "Error: Output directory not specified");
           EvPrint "Usage: python build_colab.py <output_directory>"] |})
  ∧ exit_status (main host w).1 = 1%Z.
Proof.
  intros Hargv. unfold main.
  rewrite bind_run. rewrite decide_True by done.
  unfold_monad. unfold print, log; cbn [fs dicts trace fst snd].
  rewrite <- !app_assoc. done.
Qed.

Lemma usage_when_no_argument_witness :
  main (colab_host [script_name] (Some a100_torch) healthy_child) colab_world =
    (Raise (SystemExit 1),
     {| fs := stale_fs; dicts := dicts colab_world;
        trace := [EvPrint __doc__;
                  EvPrint (nl +:+ "Error: Output directory not specified");
                  EvPrint "Usage: python build_colab.py <output_directory>"] |})
  ∧ exit_status
      (main (colab_host [script_name] (Some a100_torch) healthy_child) colab_world).1 = 1%Z.
Proof.
  apply (usage_when_no_argument
           (colab_host [script_name] (Some a100_torch) healthy_child) colab_world).
  cbn. lia.
Defined.

Ltac in_trace :=
  repeat first
    [ apply list_elem_of_singleton; reflexivity
    | apply elem_of_app; right; apply list_elem_of_singleton; reflexivity
    | apply elem_of_app; left ].

(** C7. The environment check ends the process, with status 1, exactly
    when PyTorch cannot be imported.  With PyTorch present it returns
    normally whatever the other findings are, each of which only prints
    its warning: not in Colab, no CUDA device, no CUDA_HOME.  In both
    cases it changes neither the file system nor any dictionary. *)
Theorem check_fatal_only_without_torch (host : Host) (w : World) :
  let r := check_colab_environment host w in
  fs r.2 = fs w ∧ dicts r.2 = dicts w ∧
  match torch host with
  | None => r.1 = Raise (SystemExit 1) ∧ exit_status r.1 = 1%Z
  | Some t =>
      r.1 = Return tt ∧
      (has_google_colab host = false →
         EvPrint "⚠ Warning: Not running in Google Colab" ∈ trace r.2) ∧
      (torch_cuda t = None → EvPrint "⚠ CUDA not available" ∈ trace r.2) ∧
      (environ w !! "CUDA_HOME" = None → EvPrint "⚠ CUDA_HOME not set" ∈ trace r.2)
  end.
Proof.
  unfold check_colab_environment, import_google_colab, import_torch.
  unfold try_except, mbind, M_bind, bind, print, sys_exit, raise, ret, log.
  destruct host as [argv exe ver colab t cwd run fmt sz]; cbn.
  destruct colab, t as [[tv [[c d]|]]|]; cbn.
  all: unfold environ_get, environ; cbn.
  all: destruct (default ∅ (dicts w !! os_environ) !! "CUDA_HOME") as [[|c0 s0]|] eqn:E; cbn.
  all: repeat split; try done.
  all: intros; in_trace.
Qed.

(** A build attempt that ends the run with a message: what the run as a
    whole has done by then. *)
Lemma run_ends_in_build_attempt (host : Host) (w w2 : World)
    (reached : string * PurePath) (msg : string) :
  reach_build host w = (Return reached, w2) →
  build_attempt host reached.2 w2 =
    (Raise (SystemExit 1), log (EvPrint msg) (build_world host w2)) →
  ∃ w' evs,
    main host w = (Raise (SystemExit 1), w') ∧
    exit_status (main host w).1 = 1%Z ∧
    trace w' = trace w ++ evs ∧
    last evs = Some (EvPrint msg) ∧
    no_copy evs ∧
    fs w' = (build_outcome host w2).2.
Proof.
  intros Hreach Hatt.
  assert (Hmain : main host w =
    (Raise (SystemExit 1), log (EvPrint msg) (build_world host w2))).
  { rewrite main_phases. rewrite (bind_return _ _ _ _ _ Hreach).
    erewrite bind_raise; [reflexivity|]. exact Hatt. }
  destruct (reach_build_quiet host w) as [_ (evs & Ht & Hev)].
  rewrite Hreach in Ht. cbn in Ht.
  eexists _, (evs ++ [_; _]). split; [exact Hmain|].
  rewrite Hmain. cbn. repeat split.
  - rewrite Ht, <- !app_assoc. reflexivity.
  - by rewrite last_app.
  - apply no_copy_app; [by eapply pre_build_no_copy|].
    intros src dst Hin. repeat (apply elem_of_cons in Hin as [?|Hin]; [done|]).
    by apply elem_of_nil in Hin.
Qed.

(** C3. When the run reaches the build and the build child exits with a
    non-zero status, the script exits with status 1, the last thing it
    prints is the message with that status, it copies nothing, and the
    file system is left as the child left it. *)
Theorem failed_build_exits_without_copy (host : Host) (w w2 : World)
    (reached : string * PurePath) :
  reach_build host w = (Return reached, w2) →
  (build_outcome host w2).1 ≠ 0%Z →
  ∃ w' evs,
    main host w = (Raise (SystemExit 1), w') ∧
    exit_status (main host w).1 = 1%Z ∧
    trace w' = trace w ++ evs ∧
    last evs = Some (EvPrint ("✗ Build failed with exit code " +:+
                              pretty (build_outcome host w2).1)) ∧
    no_copy evs ∧
    fs w' = (build_outcome host w2).2.
Proof.
  intros Hreach Hrc. apply (run_ends_in_build_attempt _ _ _ _ _ Hreach).
  by apply build_attempt_failed.
Qed.

Lemma failed_build_witness :
  ∃ w' evs,
    main (colab_host [script_name; "/content/drive/wheels"] (Some a100_torch)
            failing_build_child) colab_world = (Raise (SystemExit 1), w') ∧
    exit_status (main (colab_host [script_name; "/content/drive/wheels"]
            (Some a100_torch) failing_build_child) colab_world).1 = 1%Z ∧
    trace w' = trace colab_world ++ evs ∧
    last evs = Some (EvPrint "✗ Build failed with exit code 2") ∧
    no_copy evs ∧
    fs w' !! (repo ++ ["build"]) = Some Dir.
Proof.
  pose (host := colab_host [script_name; "/content/drive/wheels"] (Some a100_torch)
                  failing_build_child).
  destruct (failed_build_exits_without_copy host colab_world
              (reach_build host colab_world).2
              ("/content/drive/wheels", Path "/content/drive/wheels"))
    as (w' & evs & Hm & Hs & Ht & Hl & Hn & Hf).
  - vm_compute. reflexivity.
  - vm_compute. discriminate.
  - exists w', evs. repeat split; try assumption.
    rewrite Hf. vm_compute. reflexivity.
Defined.

(** C4. When the build child exits 0 and the script finds no [*.whl]
    entry in [dist/], it prints the error, exits with status 1 and copies
    nothing; the file system is left as the child left it. *)
Theorem no_wheel_exits_without_copy (host : Host) (w w2 : World)
    (reached : string * PurePath) :
  reach_build host w = (Return reached, w2) →
  (build_outcome host w2).1 = 0%Z →
  built_wheels host w2 = [] →
  ∃ w' evs,
    main host w = (Raise (SystemExit 1), w') ∧
    exit_status (main host w).1 = 1%Z ∧
    trace w' = trace w ++ evs ∧
    last evs = Some (EvPrint "✗ No wheel file found in dist/") ∧
    no_copy evs ∧
    fs w' = (build_outcome host w2).2.
Proof.
  intros Hreach Hrc Hno. apply (run_ends_in_build_attempt _ _ _ _ _ Hreach).
  by apply build_attempt_no_wheel.
Qed.

Lemma no_wheel_witness :
  ∃ w' evs,
    main (colab_host [script_name; "/content/drive/wheels"] (Some a100_torch)
            silent_build_child) colab_world = (Raise (SystemExit 1), w') ∧
    exit_status (main (colab_host [script_name; "/content/drive/wheels"]
            (Some a100_torch) silent_build_child) colab_world).1 = 1%Z ∧
    trace w' = trace colab_world ++ evs ∧
    last evs = Some (EvPrint "✗ No wheel file found in dist/") ∧
    no_copy evs ∧
    fs w' !! ["content"; "drive"; "wheels"] = Some Dir.
Proof.
  pose (host := colab_host [script_name; "/content/drive/wheels"] (Some a100_torch)
                  silent_build_child).
  destruct (no_wheel_exits_without_copy host colab_world
              (reach_build host colab_world).2
              ("/content/drive/wheels", Path "/content/drive/wheels"))
    as (w' & evs & Hm & Hs & Ht & Hl & Hn & Hf).
  - vm_compute. reflexivity.
  - vm_compute. reflexivity.
  - vm_compute. reflexivity.
  - exists w', evs. repeat split; try assumption.
    rewrite Hf. vm_compute. reflexivity.
Defined.

(** ** The file system *)

Lemma walk_dirs_kept (f f' : FS) (cs : list string) (cur l : location) :
  dirs_kept f f' → walk f cur cs = inr l → walk f' cur cs = inr l.
Proof.
  intros Hk. revert cur. induction cs as [|c cs IH]; intros cur; cbn; [done|].
  destruct (lookup_loc f cur) as [[]|] eqn:E; try done.
  rewrite (Hk _ E). apply IH.
Qed.

Lemma lookup_loc_insert_eq (f : FS) (l : location) (n : node) :
  l ≠ [] → lookup_loc (<[l := n]> f) l = Some n.
Proof. destruct l; [done|]. intros _. cbn. apply lookup_insert_eq. Qed.

Lemma lookup_loc_insert_ne (f : FS) (l l' : location) (n : node) :
  l ≠ l' → lookup_loc (<[l := n]> f) l' = lookup_loc f l'.
Proof. intros Hne. destruct l'; [done|]. cbn. by apply lookup_insert_ne. Qed.

Lemma dirs_kept_insert (f : FS) (l : location) (n : node) :
  lookup_loc f l ≠ Some Dir → dirs_kept f (<[l := n]> f).
Proof.
  intros Hl l' Hd. destruct (decide (l = l')) as [->|Hne]; [done|].
  by rewrite lookup_loc_insert_ne.
Qed.

Lemma stat_inr (f : FS) (cwd : location) (p : PurePath) (n : node) :
  stat f cwd p = inr n ↔ ∃ l, namei f cwd p = inr l ∧ lookup_loc f l = Some n.
Proof.
  unfold stat. destruct (namei f cwd p) as [e|l].
  - split; [done|]. by intros (l & Hl & _).
  - destruct (lookup_loc f l) as [n'|] eqn:E; split.
    + intros [= ->]. by exists l.
    + intros (l' & [= <-] & Hn). congruence.
    + done.
    + intros (l' & [= <-] & Hn). congruence.
Qed.

(** Copying a regular file to a name that resolves, is free or holds a
    regular file, and is not the source itself. *)
Lemma copy2_regular_file (host : Host) (w : World) (src dst : PurePath)
    (data : list byte) (meta : N) (ld : location) :
  stat (fs w) (getcwd host) src = inr (File data meta) →
  namei (fs w) (getcwd host) dst = inr ld →
  node_is_dir (lookup_loc (fs w) ld) = false →
  lookup_loc (fs w) ld ≠ Some Other →
  namei (fs w) (getcwd host) src ≠ inr ld →
  shutil_copy2 host src dst w =
  (Return tt, log (EvCopy src dst) (set_fs (<[ld := File data meta]> (fs w)) w)).
Proof.
  intros Hsrc Hdst Hnd Hno Hne. unfold shutil_copy2.
  assert (Hisd : fs_is_dir (fs w) (getcwd host) dst = false).
  { unfold fs_is_dir, stat. rewrite Hdst.
    destruct (lookup_loc (fs w) ld) as [[]|]; done. }
  rewrite Hisd. unfold copyfile_stat. rewrite Hsrc, Hdst.
  assert (Hsame : samefile host (fs w) src dst = false).
  { unfold samefile. rewrite Hdst.
    destruct (namei (fs w) (getcwd host) src) as [|la]; [done|].
    rewrite bool_decide_eq_false_2; [done|congruence]. }
  rewrite Hsame.
  destruct (lookup_loc (fs w) ld) as [[]|]; done.
Qed.

Lemma reach_build_returns (host : Host) (w w2 : World) (reached : string * PurePath) :
  reach_build host w = (Return reached, w2) →
  sys_argv host !! 1 = Some reached.1 ∧ reached.2 = Path reached.1.
Proof.
  unfold reach_build, startup, build_prologue. unfold_monad.
  destruct (decide _); [done|]. unfold print at 1. cbn.
  destruct (sys_argv host !! 1) as [od|]; [|done].
  split_runs; try done. by intros [= <- _].
Qed.

(** C1. When the run reaches the build, the build child exits 0 and
    leaves exactly one [*.whl] entry in [dist/], a regular file, and the
    output directory is valid (the destination name in it resolves, is
    free or holds a regular file, and is not the wheel itself), then the
    script ends normally, with exit status 0, and the destination
    [Path(sys.argv[1]) / wheel.name] holds a regular file with the
    contents and metadata of the built wheel, which is still in place;
    writing that file is all the script did to the file system after the
    child returned. *)
Theorem single_wheel_is_copied (host : Host) (w w2 : World)
    (reached : string * PurePath) (wheel : PurePath)
    (data : list byte) (meta : N) (ld : location) :
  let built := fs (build_world host w2) in
  let dest := joinpath reached.2 (Path (path_name wheel)) in
  reach_build host w = (Return reached, w2) →
  (build_outcome host w2).1 = 0%Z →
  built_wheels host w2 = [wheel] →
  stat built (getcwd host) wheel = inr (File data meta) →
  namei built (getcwd host) dest = inr ld →
  node_is_dir (lookup_loc built ld) = false →
  lookup_loc built ld ≠ Some Other →
  namei built (getcwd host) wheel ≠ inr ld →
  ∃ w',
    main host w = (Return tt, w') ∧
    exit_status (main host w).1 = 0%Z ∧
    sys_argv host !! 1 = Some reached.1 ∧
    dest = joinpath (Path reached.1) (Path (path_name wheel)) ∧
    stat (fs w') (getcwd host) dest = inr (File data meta) ∧
    stat (fs w') (getcwd host) wheel = inr (File data meta) ∧
    fs w' = <[ld := File data meta]> built.
Proof.
  intros built dest Hreach Hrc Hwh Hsrc Hdst Hnd Hno Hne.
  destruct (reach_build_returns _ _ _ _ Hreach) as [Hargv Hp].
  assert (Hld : ld ≠ []) by (intros ->; done).
  assert (Hk : dirs_kept built (<[ld := File data meta]> built)).
  { apply dirs_kept_insert. intros E. by rewrite E in Hnd. }
  assert (Hdest' : stat (<[ld := File data meta]> built) (getcwd host) dest
                   = inr (File data meta)).
  { apply stat_inr. exists ld. split.
    - by apply (walk_dirs_kept _ _ _ _ _ Hk).
    - by apply lookup_loc_insert_eq. }
  assert (Hsrc' : stat (<[ld := File data meta]> built) (getcwd host) wheel
                  = inr (File data meta)).
  { apply stat_inr in Hsrc as (la & Hla & Hn). apply stat_inr. exists la. split.
    - by apply (walk_dirs_kept _ _ _ _ _ Hk).
    - rewrite lookup_loc_insert_ne; [done|]. congruence. }
  assert (Hatt : ∃ w3, build_attempt host reached.2 w2 = (Return (path_name wheel), w3)
                       ∧ fs w3 = <[ld := File data meta]> built).
  { rewrite (build_attempt_copies _ _ _ _ _ Hrc Hwh).
    unfold copy_wheels. cbn [for_each]. unfold_monad.
    fold dest. rewrite (copy2_regular_file _ _ _ _ _ _ _ Hsrc Hdst Hnd Hno Hne).
    unfold print, path_st_size. cbn [fst snd fs log set_fs].
    fold built. rewrite Hdest'. eexists. split; reflexivity. }
  destruct Hatt as (w3 & Hatt & Hfs3).
  assert (Hmain : ∃ w', main host w = (Return tt, w') ∧ fs w' = fs w3).
  { rewrite main_phases. rewrite (bind_return _ _ _ _ _ Hreach).
    rewrite (bind_return _ _ _ _ _ Hatt).
    unfold report, print. unfold_monad. cbn. eexists. split; reflexivity. }
  destruct Hmain as (w' & Hmain & Hfs).
  exists w'. rewrite Hmain, Hfs, Hfs3. cbn [fst exit_status].
  repeat split; try done. unfold dest. by rewrite Hp.
Qed.

Lemma single_wheel_witness :
  ∃ w',
    main (colab_host [script_name; "/content/drive/wheels"] (Some a100_torch)
            healthy_child) colab_world = (Return tt, w') ∧
    stat (fs w') repo (Path "/content/drive/wheels/block_sparse_attn-0.0.1.whl")
      = inr wheel_file ∧
    stat (fs w') repo (Path "dist/block_sparse_attn-0.0.1.whl") = inr wheel_file.
Proof.
  pose (host := colab_host [script_name; "/content/drive/wheels"] (Some a100_torch)
                  healthy_child).
  destruct (single_wheel_is_copied host colab_world
              (reach_build host colab_world).2
              ("/content/drive/wheels", Path "/content/drive/wheels")
              (Path "dist/block_sparse_attn-0.0.1.whl")
              [x50; x4b; x03; x04] 420%N
              ["content"; "drive"; "wheels"; "block_sparse_attn-0.0.1.whl"])
    as (w' & Hm & _ & _ & _ & Hd & Hs & _).
  - vm_compute. reflexivity.
  - vm_compute. reflexivity.
  - vm_compute. reflexivity.
  - vm_compute. reflexivity.
  - vm_compute. reflexivity.
  - vm_compute. reflexivity.
  - vm_compute. discriminate.
  - vm_compute. discriminate.
  - exists w'. split; [exact Hm|]. split; [exact Hd|exact Hs].
Defined.

(** ** The cleanup *)

Lemma child_name_Some (d l : location) (n : string) :
  child_name d l = Some n ↔ l = d ++ [n].
Proof.
  unfold child_name. split.
  - destruct (last l) as [n'|]; [|done]. case_decide; [|done]. by intros [= <-].
  - intros ->. rewrite last_snoc. by rewrite decide_True.
Qed.

Lemma elem_of_listdir (f : FS) (d : location) (n : string) :
  n ∈ listdir f d ↔ is_Some (f !! (d ++ [n])).
Proof.
  unfold listdir. rewrite list_elem_of_omap. split.
  - intros (l & Hl & Hc). apply child_name_Some in Hc as ->.
    apply list_elem_of_fmap in Hl as ([l x] & -> & Hx).
    apply elem_of_map_to_list in Hx. by exists x.
  - intros [x Hx]. exists (d ++ [n]). split; [|by apply child_name_Some].
    apply list_elem_of_fmap. exists (d ++ [n], x). split; [done|].
    by apply elem_of_map_to_list.
Qed.

Lemma lookup_loc_snoc (f : FS) (d : location) (n : string) :
  lookup_loc f (d ++ [n]) = f !! (d ++ [n]).
Proof. by destruct d. Qed.

Lemma entry_eq (n : string) : entry n = MkPath false [n].
Proof. reflexivity. Qed.

Lemma glob_cwd (f : FS) (cwd : location) (pat : string) :
  glob f cwd (Path ".") pat =
  if node_is_dir (lookup_loc f cwd)
  then entry <$> filter (λ n, fnmatch pat n = true) (listdir f cwd)
  else [].
Proof. reflexivity. Qed.

Lemma namei_entry (f : FS) (cwd : location) (n : string) :
  n ≠ ".." → lookup_loc f cwd = Some Dir →
  namei f cwd (entry n) = inr (cwd ++ [n]).
Proof.
  intros Hn Hd. rewrite entry_eq. unfold namei. cbn. rewrite Hd.
  unfold step_loc. by rewrite decide_False.
Qed.

Lemma rmtree_loc_lookup (f : FS) (l l' : location) :
  rmtree_loc f l !! l' = if decide (l `prefix_of` l') then None else f !! l'.
Proof.
  unfold rmtree_loc. case_decide as Hp.
  - apply map_lookup_filter_None. right. intros x _ Hx. by apply Hx.
  - destruct (f !! l') as [x|] eqn:E.
    + by apply map_lookup_filter_Some.
    + apply map_lookup_filter_None. by left.
Qed.

Lemma remove_at_subseteq (f : FS) (l : location) : remove_at f l ⊆ f.
Proof.
  unfold remove_at. destruct (f !! l) as [[]|]; try done.
  - apply delete_subseteq.
  - apply map_filter_subseteq.
Qed.

Lemma remove_at_gone (f : FS) (l : location) : gone (remove_at f l) l.
Proof.
  unfold remove_at, gone. destruct (f !! l) as [[]|] eqn:E.
  - by rewrite lookup_delete_eq.
  - rewrite rmtree_loc_lookup. by rewrite decide_True.
  - by rewrite E.
  - by rewrite E.
Qed.

Lemma remove_at_other (f : FS) (l l' : location) :
  ¬ l `prefix_of` l' → remove_at f l !! l' = f !! l'.
Proof.
  intros Hp. unfold remove_at. destruct (f !! l) as [[]|]; try done.
  - apply lookup_delete_ne. by intros ->.
  - rewrite rmtree_loc_lookup. by rewrite decide_False.
Qed.

Lemma remove_at_below (f : FS) (l l' : location) :
  f !! l = Some Dir → l `prefix_of` l' → remove_at f l !! l' = None.
Proof.
  intros Hd Hp. unfold remove_at. rewrite Hd, rmtree_loc_lookup.
  by rewrite decide_True.
Qed.

Lemma snoc_not_prefix (d : location) (n : string) : ¬ (d ++ [n]) `prefix_of` d.
Proof.
  intros [k Hk]. apply (f_equal length) in Hk.
  rewrite !length_app in Hk. cbn in Hk. lia.
Qed.

Lemma remove_at_cwd (f : FS) (cwd : location) (n : string) :
  lookup_loc (remove_at f (cwd ++ [n])) cwd = lookup_loc f cwd.
Proof.
  destruct cwd as [|c cwd]; [done|]. cbn [lookup_loc].
  apply remove_at_other, snoc_not_prefix.
Qed.

Lemma gone_subseteq (f f' : FS) (l : location) : f' ⊆ f → gone f l → gone f' l.
Proof.
  intros Hs [Hd Hf]. unfold gone.
  destruct (f' !! l) as [x|] eqn:E; [|done].
  rewrite (lookup_weaken _ _ _ _ E Hs) in Hd, Hf. done.
Qed.

(** The body of the cleanup loop on an entry of the working directory. *)
Lemma remove_entry_run (host : Host) (w : World) (n : string) :
  n ≠ ".." → lookup_loc (fs w) (getcwd host) = Some Dir →
  ∃ w', remove_entry host (entry n) w = (Return tt, w') ∧
        fs w' = remove_at (fs w) (getcwd host ++ [n]) ∧ dicts w' = dicts w.
Proof.
  intros Hn Hd. pose proof (namei_entry _ _ _ Hn Hd) as Hp.
  unfold remove_entry, path_is_dir, path_is_file, fs_is_dir, fs_is_file.
  unfold shutil_rmtree, path_unlink, stat, print. unfold_monad. cbv beta iota.
  rewrite !Hp, !lookup_loc_snoc. unfold remove_at.
  destruct (fs w !! (getcwd host ++ [n])) as [[]|] eqn:E;
    repeat (cbv beta iota; rewrite ?Hp, ?lookup_loc_snoc, ?E); eauto.
Qed.

Lemma snoc_prefix_snoc (d : location) (m n : string) :
  (d ++ [m]) `prefix_of` (d ++ [n]) → m = n.
Proof.
  intros [k Hk]. rewrite <- app_assoc in Hk. apply app_inv_head in Hk.
  cbn in Hk. congruence.
Qed.

(** The inner cleanup loop over entries [ns] of an existing working
    directory: it cannot fail, it only removes, and it removes every
    directory (with all below it) and every regular file among [ns]. *)
Lemma remove_entries_run (host : Host) (ns : list string) :
  Forall (λ n, n ≠ "..") ns →
  ∀ w, lookup_loc (fs w) (getcwd host) = Some Dir →
  ∃ w',
    for_each (entry <$> ns) (remove_entry host) w = (Return tt, w') ∧
    fs w' ⊆ fs w ∧
    lookup_loc (fs w') (getcwd host) = Some Dir ∧
    dicts w' = dicts w ∧
    (∀ n, n ∈ ns → gone (fs w') (getcwd host ++ [n])) ∧
    (∀ n l, n ∈ ns → fs w !! (getcwd host ++ [n]) = Some Dir →
            (getcwd host ++ [n]) `prefix_of` l → fs w' !! l = None) ∧
    (∀ l, (∀ n, n ∈ ns → ¬ (getcwd host ++ [n]) `prefix_of` l) →
          fs w' !! l = fs w !! l).
Proof.
  induction 1 as [|n ns Hn Hns IH]; intros w Hd.
  - exists w. cbn. split_and!; try done.
    + intros n Hin. by apply elem_of_nil in Hin.
    + intros n l Hin. by apply elem_of_nil in Hin.
  - destruct (remove_entry_run host w n Hn Hd) as (w1 & Hrun & Hfs1 & Hd1).
    assert (Hd' : lookup_loc (fs w1) (getcwd host) = Some Dir).
    { by rewrite Hfs1, remove_at_cwd. }
    destruct (IH w1 Hd') as (w' & Hrun' & Hsub & Hcwd & Hdi & Hgone & Hbelow & Hframe).
    assert (Hsub1 : fs w1 ⊆ fs w) by (rewrite Hfs1; apply remove_at_subseteq).
    exists w'. cbn [fmap list_fmap for_each].
    rewrite (bind_return _ _ _ _ _ Hrun). split_and!.
    + exact Hrun'.
    + by etrans.
    + exact Hcwd.
    + congruence.
    + intros m [->|Hin]%elem_of_cons; [|by apply Hgone].
      apply (gone_subseteq _ _ _ Hsub). rewrite Hfs1. apply remove_at_gone.
    + intros m l Hin Hm Hp.
      destruct (decide (m = n)) as [->|Hne].
      * eapply lookup_weaken_None; [|exact Hsub].
        rewrite Hfs1. by apply remove_at_below.
      * apply elem_of_cons in Hin as [?|Hin]; [done|].
        apply (Hbelow m l Hin); [|done].
        rewrite Hfs1, remove_at_other; [done|].
        intros Hpp. apply snoc_prefix_snoc in Hpp. congruence.
    + intros l Hl. rewrite Hframe.
      * rewrite Hfs1. apply remove_at_other. apply Hl. left.
      * intros m Hin. apply Hl. by right.
Qed.

Lemma glob_bind_run {B} (host : Host) (p : PurePath) (pat : string)
    (k : list PurePath → M B) (w : World) :
  (path_glob host p pat ≫= k) w = k (glob (fs w) (getcwd host) p pat) w.
Proof. reflexivity. Qed.

(** The cleanup loop, for any list of patterns none of which matches
    [".."]: it returns normally, only removes, keeps the working
    directory, and when that is a directory no directory or regular file
    is left under a matching name. *)
Lemma clean_patterns_run (host : Host) (pats : list string) :
  Forall (λ pat, fnmatch pat ".." = false) pats →
  ∀ w, ∃ w',
    for_each pats (λ dir_name,
      paths ← path_glob host (Path ".") dir_name;
      for_each paths (remove_entry host)) w = (Return tt, w') ∧
    fs w' ⊆ fs w ∧
    lookup_loc (fs w') (getcwd host) = lookup_loc (fs w) (getcwd host) ∧
    dicts w' = dicts w ∧
    (lookup_loc (fs w) (getcwd host) = Some Dir →
     ∀ n, existsb (λ pat, fnmatch pat n) pats = true →
       gone (fs w') (getcwd host ++ [n]) ∧
       (fs w !! (getcwd host ++ [n]) = Some Dir →
        ∀ l, (getcwd host ++ [n]) `prefix_of` l → fs w' !! l = None)).
Proof.
  induction 1 as [|pat pats Hpat Hpats IH]; intros w.
  - exists w. cbn. split_and!; try done.
  - cbn [for_each]. rewrite bind_run, glob_bind_run, glob_cwd.
    destruct (lookup_loc (fs w) (getcwd host)) as [[]|] eqn:Hd; cbn [node_is_dir for_each].
    1,3,4: destruct (IH w) as (w' & Hrun & Hsub & Hcwd & Hdi & _); exists w';
      split_and!; [exact Hrun|done|congruence|done|done].
    set (ns := filter (λ n, fnmatch pat n = true) (listdir (fs w) (getcwd host))).
    assert (Hns : Forall (λ n, n ≠ "..") ns).
    { apply Forall_forall. intros n [Hm _]%list_elem_of_filter ->. congruence. }
    destruct (remove_entries_run host ns Hns w Hd)
      as (w1 & Hrun1 & Hsub1 & Hd1 & Hdi1 & Hgone1 & Hbelow1 & Hframe1).
    destruct (IH w1) as (w' & Hrun & Hsub & Hcwd & Hdi & Hpost).
    exists w'. rewrite Hrun1. split_and!.
    + exact Hrun.
    + by etrans.
    + congruence.
    + congruence.
    + intros _ n Hn. cbn [existsb] in Hn. apply orb_true_iff in Hn.
      destruct (fnmatch pat n) eqn:Hm.
      * destruct (fs w !! (getcwd host ++ [n])) as [x|] eqn:Hx.
        -- assert (Hin : n ∈ ns).
           { apply list_elem_of_filter. split; [done|]. apply elem_of_listdir. eauto. }
           split.
           ++ apply (gone_subseteq _ _ _ Hsub). by apply Hgone1.
           ++ intros [= ->] l Hl. eapply lookup_weaken_None; [|exact Hsub].
              by apply (Hbelow1 n l).
        -- split; [|done]. apply (gone_subseteq (fs w)); [by etrans|].
           unfold gone. by rewrite Hx.
      * destruct Hn as [?|Hn]; [done|].
        destruct (Hpost Hd1 n Hn) as [Hg Hb]. split; [done|].
        intros Hx. apply Hb. rewrite Hframe1; [done|].
        intros m [Hmm _]%list_elem_of_filter Hp.
        apply snoc_prefix_snoc in Hp. congruence.
Qed.

Lemma cleanup_patterns_not_dotdot :
  Forall (λ pat, fnmatch pat ".." = false) cleanup_patterns.
Proof. repeat constructor. Qed.

Lemma stale_name_not_dotdot (n : string) : stale_name n = true → n ≠ "..".
Proof. by intros H ->. Qed.

(** Once the working directory holds nothing pathlib would call a
    directory or a file under a stale name. *)
Lemma gone_not_dir_nor_file (f : FS) (cwd : location) (n : string) :
  n ≠ ".." →
  (lookup_loc f cwd = Some Dir → gone f (cwd ++ [n])) →
  fs_is_dir f cwd (entry n) = false ∧ fs_is_file f cwd (entry n) = false.
Proof.
  intros Hn Hg. unfold fs_is_dir, fs_is_file, stat.
  destruct (lookup_loc f cwd) as [[]|] eqn:Hd.
  2: { rewrite (namei_entry _ _ _ Hn Hd), lookup_loc_snoc.
       destruct (Hg eq_refl) as [H1 H2].
       destruct (f !! (cwd ++ [n])) as [[]|]; done. }
  all: rewrite entry_eq; unfold namei; cbn; by rewrite Hd.
Qed.

(** The cleanup step. *)
Lemma clean_previous_builds_run (host : Host) (w : World) :
  ∃ w',
    clean_previous_builds host w = (Return tt, w') ∧
    fs w' ⊆ fs w ∧
    dicts w' = dicts w ∧
    ∀ n, stale_name n = true →
      fs_is_dir (fs w') (getcwd host) (entry n) = false ∧
      fs_is_file (fs w') (getcwd host) (entry n) = false ∧
      (fs_is_dir (fs w) (getcwd host) (entry n) = true →
       ∀ l, (getcwd host ++ [n]) `prefix_of` l → fs w' !! l = None).
Proof.
  destruct (clean_patterns_run host cleanup_patterns cleanup_patterns_not_dotdot w)
    as (w' & Hrun & Hsub & Hcwd & Hdi & Hpost).
  exists w'. split_and!; try done.
  intros n Hn. pose proof (stale_name_not_dotdot n Hn) as Hdd.
  assert (Hg : lookup_loc (fs w') (getcwd host) = Some Dir →
               gone (fs w') (getcwd host ++ [n])).
  { rewrite Hcwd. intros Hd. by apply (Hpost Hd n). }
  destruct (gone_not_dir_nor_file _ _ _ Hdd Hg) as [H1 H2].
  split_and!; [done|done|].
  intros Hisd l Hl. unfold fs_is_dir, stat in Hisd.
  destruct (lookup_loc (fs w) (getcwd host)) as [[]|] eqn:Hd.
  2: { rewrite (namei_entry _ _ _ Hdd Hd), lookup_loc_snoc in Hisd.
       destruct (fs w !! (getcwd host ++ [n])) as [[]|] eqn:Hx; try done.
       by apply (Hpost eq_refl n Hn). }
  all: rewrite entry_eq in Hisd; unfold namei in Hisd; cbn in Hisd;
    by rewrite Hd in Hisd.
Qed.

(** ** Making the output directory *)

Lemma os_mkdir_is_dir (f f' : FS) (cwd : location) (p : PurePath) :
  os_mkdir f cwd p = inr f' → fs_is_dir f' cwd p = true.
Proof.
  unfold os_mkdir. destruct (namei f cwd p) as [e|l] eqn:Hn; [done|].
  destruct (lookup_loc f l) as [x|] eqn:Hl; [done|]. intros [= <-].
  assert (Hne : l ≠ []) by (intros ->; done).
  unfold fs_is_dir, stat.
  assert (Hn' : namei (<[l := Dir]> f) cwd p = inr l).
  { apply (walk_dirs_kept f); [|done]. apply dirs_kept_insert. by rewrite Hl. }
  by rewrite Hn', lookup_loc_insert_eq.
Qed.

Lemma mkdir_leaf_is_dir (f f' : FS) (cwd : location) (p : PurePath) :
  mkdir_leaf f cwd p = inr f' → fs_is_dir f' cwd p = true.
Proof.
  unfold mkdir_leaf. destruct (os_mkdir f cwd p) as [e|f1] eqn:Hm.
  - destruct (fs_is_dir f cwd p) eqn:Hd; [|done]. by intros [= <-].
  - intros [= <-]. by eapply os_mkdir_is_dir.
Qed.

Lemma mkdir_parents_rev_is_dir (f f' : FS) (cwd : location) (anch : bool)
    (rparts : list string) :
  mkdir_parents_rev f cwd anch rparts = inr f' →
  fs_is_dir f' cwd (MkPath anch (rev rparts)) = true.
Proof.
  destruct rparts as [|c rparent]; cbn [mkdir_parents_rev].
  - destruct (os_mkdir _ _ _) as [[]|f1] eqn:Hm; try done.
    all: try (destruct (fs_is_dir f cwd _) eqn:Hd; [by intros [= <-]|done]).
    intros [= <-]. by eapply os_mkdir_is_dir.
  - destruct (os_mkdir _ _ _) as [[]|f1] eqn:Hm.
    all: try (destruct (fs_is_dir f cwd _) eqn:Hd; [by intros [= <-]|done]).
    + destruct (mkdir_parents_rev f cwd anch rparent) as [e|f1]; [done|].
      apply mkdir_leaf_is_dir.
    + intros [= <-]. by eapply os_mkdir_is_dir.
Qed.

(** [mkdir(parents=True, exist_ok=True)] returns only when the path is a
    directory. *)
Lemma mkdir_parents_is_dir (f f' : FS) (cwd : location) (p : PurePath) :
  mkdir_parents f cwd p = inr f' → fs_is_dir f' cwd p = true.
Proof.
  unfold mkdir_parents. intros H%mkdir_parents_rev_is_dir.
  rewrite rev_involutive in H. by destruct p.
Qed.

(** ** The phases, taken apart *)

Lemma reach_build_phases (host : Host) (w w2 : World) (reached : string * PurePath) :
  reach_build host w = (Return reached, w2) →
  ∃ w0, startup host w = (Return reached.1, w0) ∧
        build_prologue host reached.1 w0 = (Return reached.2, w2).
Proof.
  unfold reach_build. unfold_monad.
  destruct (startup host w) as [[od|e] w0]; [|done].
  destruct (build_prologue host od w0) as [[p|e] w2'] eqn:Hp; [|done].
  intros [= <- <-]. by exists w0.
Qed.

Lemma build_prologue_returns (host : Host) (od : string) (w w2 : World) (p : PurePath) :
  build_prologue host od w = (Return p, w2) →
  p = Path od ∧
  ∃ f1 wb wc,
    mkdir_parents (fs w) (getcwd host) (Path od) = inr f1 ∧
    fs wb = f1 ∧
    clean_previous_builds host wb = (Return tt, wc) ∧
    fs w2 = fs wc.
Proof.
  unfold build_prologue, print, path_mkdir. unfold_monad. cbn [fst snd fs log set_fs].
  destruct (mkdir_parents _ _ _) as [e|f1] eqn:Hm; [done|].
  match goal with
  | |- context [clean_previous_builds host ?wb] =>
      destruct (clean_previous_builds host wb) as [[[]|e] wc] eqn:Hc; [|done]
  end.
  intros [= <- <-]. split; [done|]. eexists f1, _, wc. split_and!; [done| |exact Hc|done].
  done.
Qed.

Lemma reach_build_prepared (host : Host) (w w2 : World) (reached : string * PurePath) :
  reach_build host w = (Return reached, w2) →
  ∃ w0 f1,
    startup host w = (Return reached.1, w0) ∧
    mkdir_parents (fs w0) (getcwd host) (Path reached.1) = inr f1 ∧
    fs_is_dir f1 (getcwd host) (Path reached.1) = true ∧
    fs w2 ⊆ f1 ∧
    ∀ n, stale_name n = true →
      fs_is_dir (fs w2) (getcwd host) (entry n) = false ∧
      fs_is_file (fs w2) (getcwd host) (entry n) = false.
Proof.
  intros (w0 & Hs & Hp)%reach_build_phases.
  apply build_prologue_returns in Hp as (_ & f1 & wb & wc & Hm & Hb & Hc & Hfs).
  destruct (clean_previous_builds_run host wb) as (wc' & Hc' & Hsub & _ & Hpost).
  rewrite Hc in Hc'. injection Hc' as <-.
  exists w0, f1. split_and!; try done.
  - by eapply mkdir_parents_is_dir.
  - by rewrite Hfs, <- Hb.
  - intros n Hn. rewrite Hfs. destruct (Hpost n Hn) as (? & ? & _). done.
Qed.



(** C10. A run that exits with status 1 because the build failed or no
    wheel was found has by then made the output directory (it was a
    directory once [mkdir] returned) and run the cleanup (the child was
    started on a file system with no stale directory or file, a part of
    what [mkdir] left); the exit leaves the file system as the child
    left it: nothing is restored. *)
Theorem failure_keeps_prepared_file_system (host : Host) (w w2 : World)
    (reached : string * PurePath) :
  reach_build host w = (Return reached, w2) →
  ((build_outcome host w2).1 ≠ 0%Z ∨
   ((build_outcome host w2).1 = 0%Z ∧ built_wheels host w2 = [])) →
  ∃ w0 f1 w',
    startup host w = (Return reached.1, w0) ∧
    mkdir_parents (fs w0) (getcwd host) (Path reached.1) = inr f1 ∧
    fs_is_dir f1 (getcwd host) (Path reached.1) = true ∧
    fs w2 ⊆ f1 ∧
    (∀ n, stale_name n = true →
       fs_is_dir (fs w2) (getcwd host) (entry n) = false ∧
       fs_is_file (fs w2) (getcwd host) (entry n) = false) ∧
    main host w = (Raise (SystemExit 1), w') ∧
    exit_status (main host w).1 = 1%Z ∧
    fs w' = (run_process host (build_cmd host) (build_env w2) (fs w2)).2.
Proof.
  intros Hreach Hwhy.
  destruct (reach_build_prepared _ _ _ _ Hreach) as (w0 & f1 & Hs & Hm & Hd & Hsub & Hgone).
  assert (Hend : ∃ w' evs,
    main host w = (Raise (SystemExit 1), w') ∧
    exit_status (main host w).1 = 1%Z ∧
    trace w' = trace w ++ evs ∧
    no_copy evs ∧
    fs w' = (build_outcome host w2).2).
  { destruct Hwhy as [Hrc|[Hrc Hno]].
    - destruct (run_ends_in_build_attempt host w w2 reached _ Hreach
                  (build_attempt_failed host reached.2 w2 Hrc))
        as (w' & evs & ? & ? & ? & ? & ? & ?). by exists w', evs.
    - destruct (run_ends_in_build_attempt host w w2 reached _ Hreach
                  (build_attempt_no_wheel host reached.2 w2 Hrc Hno))
        as (w' & evs & ? & ? & ? & ? & ? & ?). by exists w', evs. }
  destruct Hend as (w' & evs & Hmain & Hex & _ & _ & Hfs).
  exists w0, f1, w'. split_and!; done.
Qed.

Lemma failure_keeps_witness :
  let host := colab_host [script_name; "/content/drive/wheels"] (Some a100_torch)
                failing_build_child in
  ∃ w',
    main host colab_world = (Raise (SystemExit 1), w') ∧
    stale_fs !! ["content"; "drive"; "wheels"] = None ∧
    fs w' !! ["content"; "drive"; "wheels"] = Some Dir ∧
    stale_fs !! (repo ++ ["dist"; "old-0.0.whl"]) = Some (File [x50; x4b; x00] 420%N) ∧
    fs w' !! (repo ++ ["dist"; "old-0.0.whl"]) = None.
Proof.
  intros host.
  destruct (failure_keeps_prepared_file_system host colab_world
              (reach_build host colab_world).2
              ("/content/drive/wheels", Path "/content/drive/wheels"))
    as (w0 & f1 & w' & _ & _ & _ & _ & _ & Hmain & _ & Hfs).
  - vm_compute. reflexivity.
  - left. vm_compute. discriminate.
  - exists w'. split; [exact Hmain|]. rewrite Hfs.
    split_and!; vm_compute; reflexivity.
Defined.

(** ** The environment of the children *)

#[global] Instance lawful_preorder (host : Host) : PreOrder (lawful host).
Proof.
  split.
  - intros w. split; [done|]. exists []. by rewrite app_nil_r.
  - intros w1 w2 w3 [He1 (e1 & Ht1 & Hf1)] [He2 (e2 & Ht2 & Hf2)].
    split; [congruence|]. exists (e1 ++ e2). split.
    + by rewrite Ht2, Ht1, app_assoc.
    + apply Forall_app. split; [done|]. by rewrite <- He1.
Qed.

Lemma pip_is_not_build (host : Host) (dep : string) : pip_cmd host dep ≠ build_cmd host.
Proof. done. Qed.

Lemma quiet_lawful (host : Host) (w w' : World) : quiet host w w' → lawful host w w'.
Proof.
  intros [Hd (evs & Ht & Hf)]. split.
  - unfold environ. by rewrite Hd.
  - exists evs. split; [done|]. eapply Forall_impl; [exact Hf|].
    intros [] Hev; cbn in *; try done.
    destruct Hev as [-> (dep & _ & ->)].
    by rewrite decide_False by apply pip_is_not_build.
Qed.

Lemma lawful_log (host : Host) (w : World) (f : FS) (ev : event) :
  child_env_ok host (environ w) ev → lawful host w (log ev (set_fs f w)).
Proof. intros H. split; [done|]. exists [ev]. split; [done|]. by constructor. Qed.

Lemma lawful_log_same (host : Host) (w : World) (ev : event) :
  child_env_ok host (environ w) ev → lawful host w (log ev w).
Proof. intros H. split; [done|]. exists [ev]. split; [done|]. by constructor. Qed.

(** The copy is a new object: [os.environ] is not touched. *)
Lemma environ_build_world (host : Host) (w : World) :
  environ (build_world host w) = environ w.
Proof.
  unfold environ, build_world. cbn [dicts].
  rewrite lookup_insert_ne; [done|].
  intros Heq. pose proof (is_fresh ({[os_environ]} ∪ dom (dicts w))) as Hfresh.
  rewrite Heq in Hfresh. set_solver.
Qed.

Lemma build_world_lawful (host : Host) (w : World) :
  lawful host w (build_world host w).
Proof.
  split; [apply environ_build_world|].
  eexists [_]. split; [reflexivity|]. constructor; [|done].
  cbn. rewrite decide_True by done. unfold build_env. split_and!.
  - done.
  - by rewrite lookup_insert_eq.
  - intros k Hk. by rewrite lookup_insert_ne.
Qed.

Lemma lawful_print (host : Host) (s : string) : preserves (lawful host) (print s).
Proof. intros w. by apply lawful_log_same. Qed.

Lemma lawful_copy2 (host : Host) (src dst : PurePath) :
  preserves (lawful host) (shutil_copy2 host src dst).
Proof.
  intros w. unfold shutil_copy2. destruct (copyfile_stat _ _ _ _); cbn.
  - reflexivity.
  - by apply lawful_log.
Qed.

Lemma lawful_st_size (host : Host) (p : PurePath) :
  preserves (lawful host) (path_st_size host p).
Proof.
  intros w. unfold path_st_size. destruct (stat _ _ _) as [|[]]; cbn; reflexivity.
Qed.

Lemma lawful_copy_wheels (host : Host) (p : PurePath) (wheels : list PurePath) :
  preserves (lawful host) (copy_wheels host p wheels).
Proof.
  unfold copy_wheels. apply preserves_for_each; [apply _|]. intros wheel _.
  repeat first [ apply lawful_print | apply lawful_copy2 | apply lawful_st_size
               | apply preserves_bind; [apply _| |intros ?] ].
Qed.

Lemma lawful_report (host : Host) (od name : string) :
  preserves (lawful host) (report host od name).
Proof.
  unfold report.
  repeat first [ apply lawful_print | apply preserves_bind; [apply _| |intros ?] ].
Qed.

Lemma lawful_build_attempt (host : Host) (p : PurePath) :
  preserves (lawful host) (build_attempt host p).
Proof.
  intros w. destruct (decide ((build_outcome host w).1 = 0%Z)) as [Hrc|Hrc].
  - destruct (built_wheels host w) as [|wheel wheels] eqn:Hwh.
    + rewrite build_attempt_no_wheel by done. cbn [snd].
      etrans; [apply build_world_lawful|]. by apply lawful_log_same.
    + rewrite (build_attempt_copies _ _ _ _ _ Hrc Hwh).
      pose proof (lawful_copy_wheels host p (wheel :: wheels) (build_world host w)) as Hc.
      destruct (copy_wheels _ _ _ _) as [[[]|e] w']; cbn [snd] in *;
        (etrans; [apply build_world_lawful|exact Hc]).
  - rewrite build_attempt_failed by done. cbn [snd].
    etrans; [apply build_world_lawful|]. by apply lawful_log_same.
Qed.

Lemma lawful_main (host : Host) : preserves (lawful host) (main host).
Proof.
  intros w. rewrite main_phases. revert w.
  apply preserves_bind; [apply _| |intros reached].
  - intros w. apply quiet_lawful, preserves_reach_build.
  - apply preserves_bind; [apply _| |intros name].
    + apply lawful_build_attempt.
    + apply lawful_report.
Qed.

(** C8. Throughout a run [os.environ] keeps its contents.  The build
    child is given a copy with [FLASH_ATTENTION_FORCE_BUILD=TRUE] set and
    every other key as in [os.environ]; every other child (pip) is given
    [os.environ] itself, without that change. *)
Theorem build_env_is_a_flagged_copy (host : Host) (w : World) :
  let final := (main host w).2 in
  environ final = environ w ∧
  ∃ evs, trace final = trace w ++ evs ∧
         Forall (child_env_ok host (environ w)) evs.
Proof. exact (lawful_main host w). Qed.

(** ** Failing children *)

Lemma main_install_phases (host : Host) (w : World) :
  main host w =
  (output_dir ← reach_install host;
   install_build_dependencies host;;
   wheel_name ← build_wheel host output_dir;
   report host output_dir wheel_name) w.
Proof.
  unfold main, reach_install, report. unfold_monad.
  destruct (decide _); [reflexivity|].
  unfold print at 1. cbn.
  destruct (sys_argv host !! 1); [|reflexivity].
  unfold print. cbn [fst snd].
  destruct (check_colab_environment host _) as [[?|?] ?]; reflexivity.
Qed.

(** The installation loop either gets through, every pip child having
    exited 0, or stops at the first child that did not, with the
    [CalledProcessError] of that child and nothing done after it. *)
Lemma install_each_outcome (host : Host) (deps : list string) (w : World) :
  ∃ evs,
    trace (install_each host deps w).2 = trace w ++ evs ∧
    dicts (install_each host deps w).2 = dicts w ∧
    (((install_each host deps w).1 = Return tt ∧ all_children_succeeded evs) ∨
     (∃ dep rc,
        dep ∈ deps ∧ rc ≠ 0%Z ∧
        (install_each host deps w).1 = Raise (CalledProcessError rc (pip_cmd host dep)) ∧
        last evs = Some (EvSpawn (pip_cmd host dep) (environ w) rc))).
Proof.
  revert w. induction deps as [|dep deps IH]; intros w.
  - exists []. cbn. rewrite app_nil_r. split_and!; [done|done|].
    left. split; [done|constructor].
  - unfold install_each. cbn [for_each]. fold (install_each host deps).
    unfold_monad. unfold print, check_call. cbn [fst snd fs dicts trace log set_fs].
    set (out := run_process host (pip_cmd host dep) _ _).
    change (environ (log _ w)) with (environ w) in out.
    destruct (decide (out.1 = 0%Z)) as [Hrc|Hrc].
    + match goal with |- context [install_each host deps ?w1] =>
        destruct (IH w1) as (evs & Ht & Hd & Hcase); set (w1' := w1) in *
      end.
      exists ([EvPrint ("Installing " +:+ dep +:+ "..."); EvSpawn (pip_cmd host dep) (environ w) out.1] ++ evs).
      split_and!.
      * rewrite Ht. cbn. by rewrite <- !app_assoc.
      * rewrite Hd. done.
      * destruct Hcase as [[Hr Hall]|(dep' & rc & Hin & Hne & Hr & Hl)].
        -- left. split; [done|]. repeat constructor; done.
        -- right. exists dep', rc. split_and!; [by right|done|done|].
           rewrite last_app, Hl. done.
    + exists [EvPrint ("Installing " +:+ dep +:+ "..."); EvSpawn (pip_cmd host dep) (environ w) out.1].
      cbn. split_and!.
      * by rewrite <- !app_assoc.
      * done.
      * right. exists dep, out.1. split_and!; [by left|done|done|done].
Qed.

Lemma install_outcome (host : Host) (w : World) :
  let r := install_build_dependencies host w in
  ∃ evs,
    trace r.2 = trace w ++ evs ∧
    ((r.1 = Return tt ∧ all_children_succeeded evs) ∨
     (∃ dep rc,
        dep ∈ dependencies ∧ rc ≠ 0%Z ∧
        r.1 = Raise (CalledProcessError rc (pip_cmd host dep)) ∧
        last evs = Some (EvSpawn (pip_cmd host dep) (environ w) rc))).
Proof.
  unfold install_build_dependencies. fold (install_each host dependencies).
  unfold_monad. unfold print. cbn [fst snd].
  match goal with |- context [install_each host dependencies ?w1] =>
    destruct (install_each_outcome host dependencies w1) as (evs & Ht & Hd & Hcase);
    change (environ w1) with (environ w) in Hcase;
    change (trace w1) with (((trace w ++ [EvPrint rule]) ++
              [EvPrint "Installing Build Dependencies"]) ++ [EvPrint rule]) in Ht
  end.
  destruct (install_each host dependencies _) as [[[]|e] w'] eqn:He; cbn [fst snd] in *.
  - eexists (_ :: _ :: _ :: evs ++ [_]). split.
    + cbn. rewrite Ht, <- !app_assoc. reflexivity.
    + left. split; [done|].
      destruct Hcase as [[_ Hall]|(? & ? & _ & _ & ? & _)]; [|done].
      repeat constructor. apply Forall_app. split; [done|]. by repeat constructor.
  - eexists (_ :: _ :: _ :: evs). split.
    + rewrite Ht, <- !app_assoc. reflexivity.
    + right. destruct Hcase as [[? _]|(dep & rc & Hin & Hne & Hr & Hl)]; [done|].
      exists dep, rc. split_and!; try done.
      rewrite !last_cons, Hl. done.
Qed.

(** C5 (amended). A failure of the build child is caught where it is
    called: the script prints the message with the status as its last
    line and exits with status 1.  A failure of a pip child is not
    caught: the installation stops at that child, its
    [CalledProcessError] leaves [main] as raised, with nothing printed
    after the child, and the interpreter ends the process with status
    1; when the installation returns, every pip child had exited 0. *)
Theorem subprocess_failures_end_the_run (host : Host) :
  (∀ w w2 reached,
     reach_build host w = (Return reached, w2) →
     (build_outcome host w2).1 ≠ 0%Z →
     ∃ w',
       main host w = (Raise (SystemExit 1), w') ∧
       exit_status (main host w).1 = 1%Z ∧
       last (trace w') =
         Some (EvPrint ("✗ Build failed with exit code " +:+
                        pretty (build_outcome host w2).1))) ∧
  (∀ w od w1,
     reach_install host w = (Return od, w1) →
     let r := install_build_dependencies host w1 in
     ∃ evs,
       trace r.2 = trace w1 ++ evs ∧
       ((r.1 = Return tt ∧ all_children_succeeded evs) ∨
        (∃ dep rc,
           dep ∈ dependencies ∧ rc ≠ 0%Z ∧
           last evs = Some (EvSpawn (pip_cmd host dep) (environ w1) rc) ∧
           main host w = (Raise (CalledProcessError rc (pip_cmd host dep)), r.2) ∧
           exit_status (main host w).1 = 1%Z))).
Proof.
  split.
  - intros w w2 reached Hreach Hrc.
    destruct (run_ends_in_build_attempt host w w2 reached _ Hreach
                (build_attempt_failed host reached.2 w2 Hrc))
      as (w' & evs & Hmain & Hex & Ht & Hl & _ & _).
    exists w'. split_and!; [done|done|].
    rewrite Ht. rewrite last_app, Hl. done.
  - intros w od w1 Hreach r.
    destruct (install_outcome host w1) as (evs & Ht & Hcase). fold r in Ht, Hcase.
    exists evs. split; [done|].
    destruct Hcase as [?|(dep & rc & Hin & Hne & Hr & Hl)]; [by left|right].
    exists dep, rc.
    assert (Hmain : main host w = (Raise (CalledProcessError rc (pip_cmd host dep)), r.2)).
    { rewrite main_install_phases. rewrite (bind_return _ _ _ _ _ Hreach).
      apply bind_raise. rewrite <- Hr. subst r. by destruct (install_build_dependencies host w1). }
    split_and!; try done. by rewrite Hmain.
Qed.

Lemma pip_failure_witness :
  let host := colab_host [script_name; "/content/drive/wheels"] (Some a100_torch)
                failing_pip_child in
  ∃ dep rc w',
    rc ≠ 0%Z ∧
    main host colab_world = (Raise (CalledProcessError rc (pip_cmd host dep)), w') ∧
    exit_status (main host colab_world).1 = 1%Z.
Proof.
  intros host.
  destruct (subprocess_failures_end_the_run host) as [_ Hpip].
  destruct (Hpip colab_world "/content/drive/wheels" (reach_install host colab_world).2)
    as (evs & _ & [[Hr _]|(dep & rc & _ & Hne & _ & Hmain & Hex)]).
  - vm_compute. reflexivity.
  - vm_compute in Hr. discriminate.
  - exists dep, rc. eexists. split_and!; [exact Hne|exact Hmain|exact Hex].
Defined.

(** C5 as worded fails: pip exits with status 1 for ninja, and the run
    ends with the uncaught [CalledProcessError], not by [sys.exit(1)]
    after a message. *)
Lemma pip_failure_is_not_caught :
  ¬ failures_caught_and_reported
      (colab_host [script_name; "/content/drive/wheels"] (Some a100_torch)
         failing_pip_child) colab_world.
Proof.
  intros H.
  destruct (H ["/usr/bin/python3"; "-m"; "pip"; "install"; "--upgrade"; "ninja"]
              {[ "CUDA_HOME" := "/usr/local/cuda" ]} 1%Z) as [Hr _].
  - apply last_Some_elem_of. vm_compute. reflexivity.
  - done.
  - vm_compute in Hr. discriminate.
Qed.

(** ** An output directory that the cleanup removes *)

(** C2 (the code departs from the claim). Run in [/content/repo] with
    the output directory [wheels.egg-info]: the script makes the
    directory first (line 90, under the comment "Ensure output directory
    exists"), the cleanup loop of lines 95-102 then removes it because
    its name matches ['*.egg-info'], and the build succeeds and leaves one
    wheel.  The copy step is reached with the output directory missing:
    [shutil.copy2] raises [FileNotFoundError], which the [except] clause
    does not catch, nothing is copied and the process ends with status
    1. *)
Theorem output_dir_lost_to_cleanup :
  let host := colab_host [script_name; "wheels.egg-info"] (Some a100_torch)
                healthy_child in
  let started := (reach_build host colab_world).2 in
  let final := main host colab_world in
  (reach_build host colab_world).1 =
    Return ("wheels.egg-info", Path "wheels.egg-info") ∧
  trace started !! 28%nat = Some (EvMkdir (Path "wheels.egg-info")) ∧
  trace started !! 35%nat = Some (EvRmtree (entry "wheels.egg-info")) ∧
  (build_outcome host started).1 = 0%Z ∧
  built_wheels host started = [Path "dist/block_sparse_attn-0.0.1.whl"] ∧
  fs_is_dir (fs (build_world host started)) repo (Path "wheels.egg-info") = false ∧
  final.1 = Raise (OSError ENOENT) ∧
  exit_status final.1 = 1%Z ∧
  no_copy (trace final.2).
Proof.
  intros host started final. split_and!; try (vm_compute; reflexivity).
  intros src dst Hin. vm_compute in Hin.
  repeat (apply elem_of_cons in Hin as [Hin|Hin]; [discriminate|]).
  by apply elem_of_nil in Hin.
Qed.

(** * Further properties of the script *)

(** ** Making the output directory (line 90) *)

Lemma mkdir_parents_rev_exists (f : FS) (cwd : location) (anch : bool)
    (rparts : list string) :
  os_mkdir f cwd (MkPath anch (rev rparts)) = inl EEXIST →
  mkdir_parents_rev f cwd anch rparts =
  if fs_is_dir f cwd (MkPath anch (rev rparts)) then inr f else inl EEXIST.
Proof.
  intros Hm. destruct rparts; cbn [mkdir_parents_rev]; by rewrite Hm.
Qed.

Lemma path_eta (p : PurePath) : MkPath (anchored p) (rev (rev (parts p))) = p.
Proof. rewrite rev_involutive. by destruct p. Qed.

Lemma mkdir_parents_existing (f : FS) (cwd : location) (p : PurePath) :
  fs_is_dir f cwd p = true → mkdir_parents f cwd p = inr f.
Proof.
  intros Hd. unfold mkdir_parents.
  rewrite mkdir_parents_rev_exists; rewrite path_eta.
  - by rewrite Hd.
  - unfold fs_is_dir, stat in Hd. unfold os_mkdir.
    destruct (namei f cwd p) as [e|l]; [done|].
    destruct (lookup_loc f l) as [n|]; done.
Qed.

Lemma stat_not_dir_mkdir (f : FS) (cwd : location) (p : PurePath) (n : node) :
  stat f cwd p = inr n → n ≠ Dir → mkdir_parents f cwd p = inl EEXIST.
Proof.
  intros Hs Hn. unfold mkdir_parents.
  rewrite mkdir_parents_rev_exists; rewrite path_eta.
  - unfold fs_is_dir. rewrite Hs. by destruct n.
  - unfold stat in Hs. unfold os_mkdir.
    destruct (namei f cwd p) as [e|l]; [done|].
    destruct (lookup_loc f l) as [n'|]; done.
Qed.







(** X1. An output directory that exists already is accepted as it is:
    the [mkdir] step returns normally and the file system is unchanged. *)
Theorem mkdir_keeps_existing_output_dir (host : Host) (output_dir : string) (w : World) :
  fs_is_dir (fs w) (getcwd host) (Path output_dir) = true →
  ∃ w', path_mkdir host (Path output_dir) w = (Return tt, w') ∧
        fs w' = fs w ∧ dicts w' = dicts w ∧
        trace w' = trace w ++ [EvMkdir (Path output_dir)].
Proof.
  intros Hd. unfold path_mkdir. rewrite (mkdir_parents_existing _ _ _ Hd).
  eexists. split; [reflexivity|]. done.
Qed.

Lemma mkdir_keeps_existing_witness :
  ∃ w', path_mkdir (colab_host [script_name; "dist"] (Some a100_torch) healthy_child)
          (Path "dist") colab_world = (Return tt, w') ∧
        fs w' = stale_fs.
Proof.
  destruct (mkdir_keeps_existing_output_dir
              (colab_host [script_name; "dist"] (Some a100_torch) healthy_child)
              "dist" colab_world) as (w' & Hrun & Hfs & _).
  - vm_compute. reflexivity.
  - exists w'. by split.
Defined.


(** X3. When the output path names something that is not a directory (a
    regular file, say), [build_wheel] stops at the [mkdir] step with
    [FileExistsError]: only the three banner lines have been printed,
    nothing has been cleaned and no child has been started; the
    exception is not caught, so the process ends with status 1. *)
Theorem output_path_not_a_directory (host : Host) (output_dir : string) (w : World)
    (n : node) :
  stat (fs w) (getcwd host) (Path output_dir) = inr n → n ≠ Dir →
  build_wheel host output_dir w =
    (Raise (OSError EEXIST),
     {| fs := fs w; dicts := dicts w;
        trace := trace w ++ [EvPrint rule; EvPrint "Building Wheel"; EvPrint rule] |}) ∧
  exit_status (build_wheel host output_dir w).1 = 1%Z.
Proof.
  intros Hs Hn.
  assert (Hrun : build_wheel host output_dir w =
    (Raise (OSError EEXIST),
     {| fs := fs w; dicts := dicts w;
        trace := trace w ++ [EvPrint rule; EvPrint "Building Wheel"; EvPrint rule] |})).
  { unfold build_wheel. unfold_monad. unfold print, path_mkdir.
    cbn [fst snd fs dicts trace log].
    rewrite (stat_not_dir_mkdir _ _ _ _ Hs Hn).
    unfold log. cbn [fs dicts trace]. by rewrite <- !app_assoc. }
  by rewrite Hrun.
Qed.

Lemma output_path_not_a_directory_witness :
  (build_wheel (colab_host [script_name; "setup.py"] (Some a100_torch) healthy_child)
     "setup.py" colab_world).1 = Raise (OSError EEXIST).
Proof.
  destruct (output_path_not_a_directory
              (colab_host [script_name; "setup.py"] (Some a100_torch) healthy_child)
              "setup.py" colab_world (File [x23] 420%N)) as [Hrun _].
  - vm_compute. reflexivity.
  - done.
  - by rewrite Hrun.
Defined.

(** ** The cleanup (lines 93-102) *)

Lemma clean_patterns_frame (host : Host) (pats : list string) :
  Forall (λ pat, fnmatch pat ".." = false) pats →
  ∀ w l,
    (∀ n, existsb (λ pat, fnmatch pat n) pats = true →
          ¬ (getcwd host ++ [n]) `prefix_of` l) →
    fs (for_each pats (λ dir_name,
          paths ← path_glob host (Path ".") dir_name;
          for_each paths (remove_entry host)) w).2 !! l = fs w !! l.
Proof.
  induction 1 as [|pat pats Hpat Hpats IH]; intros w l Hl; [done|].
  cbn [for_each]. rewrite bind_run, glob_bind_run, glob_cwd.
  assert (Hl' : ∀ n, existsb (λ pat, fnmatch pat n) pats = true →
                     ¬ (getcwd host ++ [n]) `prefix_of` l).
  { intros n Hn. apply Hl. cbn. rewrite Hn. by rewrite orb_true_r. }
  destruct (lookup_loc (fs w) (getcwd host)) as [[]|] eqn:Hd; cbn [node_is_dir for_each].
  1,3,4: by apply IH.
  set (ns := filter (λ n, fnmatch pat n = true) (listdir (fs w) (getcwd host))).
  assert (Hns : Forall (λ n, n ≠ "..") ns).
  { apply Forall_forall. intros n [Hm _]%list_elem_of_filter ->. congruence. }
  destruct (remove_entries_run host ns Hns w Hd)
    as (w1 & Hrun1 & _ & _ & _ & _ & _ & Hframe1).
  rewrite Hrun1. rewrite IH by done. apply Hframe1.
  intros n [Hm _]%list_elem_of_filter. apply Hl. cbn. by rewrite Hm.
Qed.

(** X4. The cleanup touches nothing but the stale entries: a location
    that is neither an entry of the working directory with a name
    matching ['build'], ['dist'] or ['*.egg-info'] nor below such an
    entry holds after the cleanup what it held before. *)
Theorem cleanup_leaves_the_rest (host : Host) (w : World) (l : location) :
  (∀ n, stale_name n = true → ¬ (getcwd host ++ [n]) `prefix_of` l) →
  fs (clean_previous_builds host w).2 !! l = fs w !! l.
Proof.
  intros Hl.
  apply (clean_patterns_frame host cleanup_patterns cleanup_patterns_not_dotdot w l Hl).
Qed.

Lemma prefix_snoc_inv (d l : location) (n : string) :
  (d ++ [n]) `prefix_of` l → d `prefix_of` l ∧ l !! length d = Some n.
Proof.
  intros [k ->]. split.
  - exists ([n] ++ k). by rewrite <- app_assoc.
  - rewrite <- app_assoc. rewrite lookup_app_r by lia.
    by rewrite Nat.sub_diag.
Qed.

Lemma cleanup_leaves_the_rest_witness :
  fs (clean_previous_builds
        (colab_host [script_name; "out"] (Some a100_torch) healthy_child)
        colab_world).2 !! (repo ++ ["setup.py"]) = Some (File [x23] 420%N).
Proof.
  rewrite (cleanup_leaves_the_rest
             (colab_host [script_name; "out"] (Some a100_torch) healthy_child)
             colab_world (repo ++ ["setup.py"])).
  - vm_compute. reflexivity.
  - intros n Hn Hp. apply prefix_snoc_inv in Hp as [_ Hp].
    cbn in Hp. injection Hp as <-. vm_compute in Hn. discriminate.
Defined.

(** ** The environment check as a gate (lines 39-50, 152-153) *)

(** X5. Without PyTorch a run that was given an output directory ends in
    the environment check: the last line printed says so, the exit
    status is 1, and the script has printed and done nothing else: no
    child was started, the file system and the dictionaries are as they
    were. *)
Theorem without_torch_nothing_is_touched (host : Host) (w : World) :
  (2 ≤ length (sys_argv host))%nat →
  torch host = None →
  ∃ evs,
    main host w =
      (Raise (SystemExit 1),
       {| fs := fs w; dicts := dicts w; trace := trace w ++ evs |}) ∧
    Forall is_print evs ∧
    last evs = Some (EvPrint "✗ PyTorch not installed") ∧
    exit_status (main host w).1 = 1%Z.
Proof.
  intros Hargv Htorch.
  destruct host as [argv exe ver colab th cwd run fmt sz]. cbn in Hargv, Htorch. subst th.
  destruct argv as [|a0 [|od rest]]; cbn in Hargv; try lia.
  unfold main. rewrite bind_run. rewrite decide_False by (cbn; lia).
  unfold check_colab_environment, import_google_colab, import_torch.
  unfold try_except, mbind, M_bind, bind, print, sys_exit, raise, ret, log.
  cbn [sys_argv has_google_colab torch version_info lookup list_lookup fst snd
       fs dicts trace].
  destruct colab; cbn [fst snd fs dicts trace].
  - eexists [_; _; _; _; _; _; _; _; _]. split_and!.
    + rewrite <- !app_assoc. reflexivity.
    + repeat constructor.
    + reflexivity.
    + reflexivity.
  - eexists [_; _; _; _; _; _; _; _; _]. split_and!.
    + rewrite <- !app_assoc. reflexivity.
    + repeat constructor.
    + reflexivity.
    + reflexivity.
Qed.

Lemma without_torch_witness :
  (main (colab_host [script_name; "/content/drive/wheels"] None healthy_child)
     colab_world).1 = Raise (SystemExit 1) ∧
  fs (main (colab_host [script_name; "/content/drive/wheels"] None healthy_child)
        colab_world).2 = stale_fs.
Proof.
  destruct (without_torch_nothing_is_touched
              (colab_host [script_name; "/content/drive/wheels"] None healthy_child)
              colab_world) as (evs & Hrun & _).
  - cbn. lia.
  - reflexivity.
  - rewrite Hrun. by split.
Defined.

(** ** The copy loop and the report (lines 124-131, 161-167) *)



Lemma report_run (host : Host) (od name : string) (w : World) :
  report host od name w =
  (Return tt, {| fs := fs w; dicts := dicts w;
                 trace := trace w ++ report_lines host od name |}).
Proof.
  unfold report, print, report_lines. unfold_monad. unfold log.
  cbn [fst snd fs dicts trace]. by rewrite <- !app_assoc.
Qed.





(** ** The children of a run (lines 75-77, 112) *)

Lemma spawned_app (evs evs' : list event) :
  spawned (evs ++ evs') = spawned evs ++ spawned evs'.
Proof. apply omap_app. Qed.

#[global] Instance spawnless_preorder : PreOrder spawnless.
Proof.
  split.
  - intros w. exists []. by rewrite app_nil_r.
  - intros w1 w2 w3 (e1 & Ht1 & Hs1) (e2 & Ht2 & Hs2). exists (e1 ++ e2). split.
    + by rewrite Ht2, Ht1, app_assoc.
    + by rewrite spawned_app, Hs1, Hs2.
Qed.

Lemma spawnless_log (w : World) (f : FS) (ev : event) :
  spawned [ev] = [] → spawnless w (log ev (set_fs f w)).
Proof. intros H. by exists [ev]. Qed.

Lemma spawnless_print (s : string) : preserves spawnless (print s).
Proof. intros w. by exists [EvPrint s]. Qed.

Lemma spawnless_mkdir (host : Host) (p : PurePath) :
  preserves spawnless (path_mkdir host p).
Proof.
  intros w. unfold path_mkdir. destruct (mkdir_parents _ _ _); cbn.
  - reflexivity.
  - by apply spawnless_log.
Qed.

Lemma spawnless_rmtree (host : Host) (p : PurePath) :
  preserves spawnless (shutil_rmtree host p).
Proof.
  intros w. unfold shutil_rmtree.
  destruct (namei _ _ _); cbn; [reflexivity|].
  destruct (lookup_loc _ _) as [[]|]; cbn; try reflexivity. by apply spawnless_log.
Qed.

Lemma spawnless_unlink (host : Host) (p : PurePath) :
  preserves spawnless (path_unlink host p).
Proof.
  intros w. unfold path_unlink.
  destruct (namei _ _ _); cbn; [reflexivity|].
  destruct (lookup_loc _ _) as [[]|]; cbn; try reflexivity; by apply spawnless_log.
Qed.

Lemma spawnless_copy2 (host : Host) (src dst : PurePath) :
  preserves spawnless (shutil_copy2 host src dst).
Proof.
  intros w. unfold shutil_copy2. destruct (copyfile_stat _ _ _ _); cbn.
  - reflexivity.
  - by apply spawnless_log.
Qed.

Lemma spawnless_st_size (host : Host) (p : PurePath) :
  preserves spawnless (path_st_size host p).
Proof.
  intros w. unfold path_st_size. destruct (stat _ _ _) as [|[]]; cbn; reflexivity.
Qed.

Lemma spawnless_pure {A} (f : World → A) :
  preserves spawnless (λ w, (Return (f w), w)).
Proof. intros w. reflexivity. Qed.

Ltac spawnless_step :=
  first
    [ apply spawnless_print
    | apply spawnless_mkdir
    | apply spawnless_rmtree
    | apply spawnless_unlink
    | apply spawnless_copy2
    | apply spawnless_st_size
    | apply spawnless_pure
    | apply preserves_ret; apply _
    | apply preserves_raise; apply _
    | apply preserves_for_each; [apply _|intros ? ?]
    | apply preserves_try; [apply _| |intros ? ? ?]
    | apply preserves_bind; [apply _| |intros ?] ].

Lemma spawnless_check (host : Host) :
  preserves spawnless (check_colab_environment host).
Proof.
  unfold check_colab_environment, import_google_colab, import_torch, environ_get, sys_exit.
  repeat spawnless_step.
  all: repeat case_match; simplify_eq; repeat spawnless_step.
Qed.

Lemma spawnless_reach_install (host : Host) :
  preserves spawnless (reach_install host).
Proof.
  unfold reach_install, sys_exit.
  repeat first [ apply spawnless_check | spawnless_step ].
  all: repeat case_match; repeat spawnless_step.
Qed.

Lemma spawnless_prologue (host : Host) (output_dir : string) :
  preserves spawnless (build_prologue host output_dir).
Proof.
  unfold build_prologue, clean_previous_builds, remove_entry, path_glob,
    path_is_dir, path_is_file.
  repeat spawnless_step.
  all: repeat (repeat case_match; repeat spawnless_step).
Qed.

Lemma spawnless_copy_wheels (host : Host) (p : PurePath) (wheels : list PurePath) :
  preserves spawnless (copy_wheels host p wheels).
Proof. unfold copy_wheels. repeat spawnless_step. Qed.

Lemma spawnless_report (host : Host) (od name : string) :
  preserves spawnless (report host od name).
Proof. unfold report. repeat spawnless_step. Qed.

(** The loop of lines 75-77 over any list of packages. *)
Lemma install_each_spawned (host : Host) (deps : list string) (w : World) :
  ∃ evs,
    trace (install_each host deps w).2 = trace w ++ evs ∧
    (((install_each host deps w).1 = Return tt ∧
      spawned evs = succeeded (pip_cmd host <$> deps)) ∨
     (∃ ran dep rest rc,
        deps = ran ++ dep :: rest ∧ rc ≠ 0%Z ∧
        (install_each host deps w).1 = Raise (CalledProcessError rc (pip_cmd host dep)) ∧
        spawned evs = succeeded (pip_cmd host <$> ran) ++ [(pip_cmd host dep, rc)])).
Proof.
  revert w. induction deps as [|dep deps IH]; intros w.
  - exists []. cbn. rewrite app_nil_r. split; [done|]. by left.
  - unfold install_each. cbn [for_each]. fold (install_each host deps).
    unfold_monad. unfold print, check_call. cbn [fst snd fs dicts trace log set_fs].
    set (out := run_process host (pip_cmd host dep) _ _).
    destruct (decide (out.1 = 0%Z)) as [Hrc|Hrc].
    + match goal with |- context [install_each host deps ?w1] =>
        destruct (IH w1) as (evs & Ht & Hcase)
      end.
      exists ([EvPrint ("Installing " +:+ dep +:+ "...");
               EvSpawn (pip_cmd host dep) (environ w) out.1] ++ evs).
      split.
      * rewrite Ht. cbn. by rewrite <- !app_assoc.
      * destruct Hcase as [[Hr Hs]|(ran & dep' & rest & rc & Hd & Hne & Hr & Hs)].
        -- left. split; [done|]. rewrite spawned_app, Hs. cbn. by rewrite Hrc.
        -- right. exists (dep :: ran), dep', rest, rc. split_and!; try done.
           ++ by rewrite Hd.
           ++ rewrite spawned_app, Hs. cbn. by rewrite Hrc.
    + exists [EvPrint ("Installing " +:+ dep +:+ "...");
              EvSpawn (pip_cmd host dep) (environ w) out.1].
      cbn. split.
      * by rewrite <- !app_assoc.
      * right. by exists [], dep, deps, out.1.
Qed.

Lemma install_spawned (host : Host) (w : World) :
  ∃ evs,
    trace (install_build_dependencies host w).2 = trace w ++ evs ∧
    (((install_build_dependencies host w).1 = Return tt ∧
      spawned evs = succeeded (pip_cmd host <$> dependencies)) ∨
     (∃ ran dep rest rc,
        dependencies = ran ++ dep :: rest ∧ rc ≠ 0%Z ∧
        (install_build_dependencies host w).1 =
          Raise (CalledProcessError rc (pip_cmd host dep)) ∧
        spawned evs = succeeded (pip_cmd host <$> ran) ++ [(pip_cmd host dep, rc)])).
Proof.
  unfold install_build_dependencies. fold (install_each host dependencies).
  unfold_monad. unfold print. cbn [fst snd].
  match goal with |- context [install_each host dependencies ?w1] =>
    destruct (install_each_spawned host dependencies w1) as (evs & Ht & Hcase);
    change (trace w1) with (((trace w ++ [EvPrint rule]) ++
              [EvPrint "Installing Build Dependencies"]) ++ [EvPrint rule]) in Ht
  end.
  destruct (install_each host dependencies _) as [[[]|e] w'] eqn:He; cbn [fst snd] in *.
  - eexists ([_; _; _] ++ evs ++ [_]). split.
    + cbn. rewrite Ht, <- !app_assoc. reflexivity.
    + left. split; [done|].
      destruct Hcase as [[_ Hs]|(? & ? & ? & ? & _ & _ & ? & _)]; [|done].
      rewrite !spawned_app, Hs. cbn. by rewrite ?app_nil_r.
  - eexists ([_; _; _] ++ evs). split.
    + rewrite Ht, <- !app_assoc. reflexivity.
    + right. destruct Hcase as [[? _]|(ran & dep & rest & rc & Hd & Hne & Hr & Hs)]; [done|].
      exists ran, dep, rest, rc. split_and!; try done.
Qed.

(** X8. The installation starts the pip commands in the order of the
    list, each only when every earlier one exited 0.  It returns when
    all four did; otherwise it stops at the first that did not, with
    the [CalledProcessError] of that command, and the later packages
    are never asked for. *)
Theorem installs_run_in_order (host : Host) (w : World) :
  ∃ evs,
    trace (install_build_dependencies host w).2 = trace w ++ evs ∧
    (((install_build_dependencies host w).1 = Return tt ∧
      spawned evs = succeeded (pip_cmd host <$> dependencies)) ∨
     (∃ ran dep rest rc,
        dependencies = ran ++ dep :: rest ∧ rc ≠ 0%Z ∧
        (install_build_dependencies host w).1 =
          Raise (CalledProcessError rc (pip_cmd host dep)) ∧
        spawned evs = succeeded (pip_cmd host <$> ran) ++ [(pip_cmd host dep, rc)])).
Proof. exact (install_spawned host w). Qed.

(** The build attempt starts one child, the build. *)
Lemma build_attempt_spawned (host : Host) (p : PurePath) (w : World) :
  ∃ evs,
    trace (build_attempt host p w).2 = trace w ++ evs ∧
    spawned evs = [(build_cmd host, (build_outcome host w).1)] ∧
    ((build_outcome host w).1 ≠ 0%Z → ∃ e, (build_attempt host p w).1 = Raise e).
Proof.
  destruct (decide ((build_outcome host w).1 = 0%Z)) as [Hrc|Hrc].
  - destruct (built_wheels host w) as [|wheel wheels] eqn:Hwh.
    + rewrite build_attempt_no_wheel by done. eexists [_; _]. cbn.
      rewrite <- app_assoc. by split_and!.
    + rewrite (build_attempt_copies _ _ _ _ _ Hrc Hwh).
      destruct (spawnless_copy_wheels host p (wheel :: wheels) (build_world host w))
        as (evs & Ht & Hs).
      exists ([EvSpawn (build_cmd host) (build_env w) (build_outcome host w).1] ++ evs).
      split_and!; [|by rewrite spawned_app, Hs|done].
      destruct (copy_wheels _ _ _ _) as [[[]|e] w']; cbn [snd] in *;
        rewrite Ht; cbn [build_world trace]; by rewrite <- app_assoc.
  - rewrite build_attempt_failed by done. eexists [_; _]. cbn.
    rewrite <- app_assoc. split_and!; [done|done|eauto].
Qed.

(** X9. The children of a run.  Whatever the machine and the children
    do, the script starts at most five children: the four pip commands
    in the order of the list, then the build command.  A child is
    started only when every earlier one exited 0, and a run that
    returns has started all five, each exiting 0. *)
Theorem children_run_in_order (host : Host) (w : World) :
  ∃ evs,
    trace (main host w).2 = trace w ++ evs ∧
    in_order (script_commands host) (spawned evs) ∧
    ((main host w).1 = Return tt →
     spawned evs = succeeded (script_commands host)).
Proof.
  rewrite main_install_phases, bind_run.
  destruct (spawnless_reach_install host w) as (e0 & Ht0 & Hs0).
  destruct (reach_install host w) as [[od|ex] w0]; cbn [snd] in *; cycle 1.
  { exists e0. split_and!; [done| |done].
    exists [], (script_commands host). split; [done|]. by left. }
  rewrite bind_run.
  destruct (install_spawned host w0) as (e1 & Ht1 & Hcase).
  destruct (install_build_dependencies host w0) as [[[]|ex] w1]; cbn [fst snd] in *; cycle 1.
  { exists (e0 ++ e1). split_and!; [by rewrite Ht1, Ht0, app_assoc| |done].
    destruct Hcase as [[? _]|(ran & dep & rest & rc & Hd & Hne & _ & Hs)]; [done|].
    exists (pip_cmd host <$> ran), ((pip_cmd host <$> (dep :: rest)) ++ [build_cmd host]).
    split.
    - unfold script_commands. by rewrite Hd, fmap_app, <- app_assoc.
    - right. eexists _, _, rc. split_and!; [reflexivity|done|].
      by rewrite spawned_app, Hs0, Hs. }
  destruct Hcase as [[_ Hs1]|(? & ? & ? & ? & _ & _ & ? & _)]; [|done].
  rewrite bind_run, build_wheel_phases, bind_run.
  destruct (spawnless_prologue host od w1) as (e2 & Ht2 & Hs2).
  destruct (build_prologue host od w1) as [[p|ex] w2]; cbn [snd] in *; cycle 1.
  { exists (e0 ++ e1 ++ e2). split_and!; [by rewrite Ht2, Ht1, Ht0, <- !app_assoc| |done].
    exists (pip_cmd host <$> dependencies), [build_cmd host]. split; [done|]. left.
    by rewrite !spawned_app, Hs0, Hs1, Hs2, app_nil_r. }
  destruct (build_attempt_spawned host p w2) as (e3 & Ht3 & Hs3 & Hfail).
  assert (Hrun : spawned (e0 ++ e1 ++ e2 ++ e3) =
                 succeeded (pip_cmd host <$> dependencies) ++
                 [(build_cmd host, (build_outcome host w2).1)]).
  { by rewrite !spawned_app, Hs0, Hs1, Hs2, Hs3. }
  assert (Hord : in_order (script_commands host) (spawned (e0 ++ e1 ++ e2 ++ e3))).
  { rewrite Hrun. destruct (decide ((build_outcome host w2).1 = 0%Z)) as [Hrc|Hrc].
    - exists (script_commands host), []. split; [by rewrite app_nil_r|]. left.
      rewrite Hrc. unfold script_commands, succeeded. by rewrite fmap_app.
    - exists (pip_cmd host <$> dependencies), [build_cmd host]. split; [done|].
      right. by eexists _, _, _. }
  destruct (build_attempt host p w2) as [[name|ex] w3]; cbn [fst snd] in *; cycle 1.
  { exists (e0 ++ e1 ++ e2 ++ e3).
    split_and!; [by rewrite Ht3, Ht2, Ht1, Ht0, <- !app_assoc|done|done]. }
  destruct (spawnless_report host od name w3) as (e4 & Ht4 & Hs4).
  exists ((e0 ++ e1 ++ e2 ++ e3) ++ e4). split_and!.
  - by rewrite Ht4, Ht3, Ht2, Ht1, Ht0, <- !app_assoc.
  - by rewrite spawned_app, Hs4, app_nil_r.
  - intros _. rewrite spawned_app, Hs4, app_nil_r, Hrun.
    destruct (decide ((build_outcome host w2).1 = 0%Z)) as [Hrc|Hrc].
    + rewrite Hrc. unfold script_commands, succeeded. by rewrite fmap_app.
    + by destruct (Hfail Hrc).
Qed.

(** ** The output directory and the cleanup (lines 88-102) *)

Lemma walk_plain (f : FS) (cs : list string) :
  ".." ∉ cs → ∀ cur l, walk f cur cs = inr l → l = cur ++ cs.
Proof.
  induction cs as [|c cs IH]; intros Hdd cur l; cbn.
  - intros [= <-]. by rewrite app_nil_r.
  - apply not_elem_of_cons in Hdd as [Hc Hcs].
    destruct (lookup_loc f cur) as [[]|]; try done.
    unfold step_loc. rewrite decide_False by done.
    intros ->%IH; [|done]. by rewrite <- app_assoc.
Qed.

Lemma walk_agree (f f' : FS) (cs : list string) :
  ".." ∉ cs →
  ∀ cur, (∀ l, l `prefix_of` cur ++ cs → lookup_loc f' l = lookup_loc f l) →
  walk f' cur cs = walk f cur cs.
Proof.
  induction cs as [|c cs IH]; intros Hdd cur Hag; cbn; [done|].
  apply not_elem_of_cons in Hdd as [Hc Hcs].
  rewrite (Hag cur) by apply prefix_app_r, reflexivity.
  destruct (lookup_loc f cur) as [[]|]; try done.
  unfold step_loc. rewrite decide_False by done.
  apply IH; [done|]. intros l Hl. apply Hag. by rewrite <- app_assoc in Hl.
Qed.

(** X10. An output directory clear of the cleanup is there when the
    build starts.  When the path given has no ['..'] component and the
    place it names is neither an entry of the working directory called
    ['build'], ['dist'] or ['*.egg-info'] nor below one, the directory
    made at line 90 is still a directory after the cleanup of lines
    95-102. *)
Theorem output_dir_survives_cleanup (host : Host) (w w2 : World)
    (reached : string * PurePath) :
  reach_build host w = (Return reached, w2) →
  ".." ∉ parts (Path reached.1) →
  (∀ n, stale_name n = true →
        ¬ (getcwd host ++ [n]) `prefix_of` plain_location host (Path reached.1)) →
  fs_is_dir (fs w2) (getcwd host) (Path reached.1) = true.
Proof.
  intros (w0 & Hs & Hp)%reach_build_phases Hdd Hclear.
  apply build_prologue_returns in Hp as (_ & f1 & wb & wc & Hm & Hb & Hc & Hfs).
  pose proof (mkdir_parents_is_dir _ _ _ _ Hm) as Hdir.
  assert (Hag : ∀ l, l `prefix_of` plain_location host (Path reached.1) →
                     lookup_loc (fs w2) l = lookup_loc f1 l).
  { intros l Hl. destruct l as [|c l]; [done|]. cbn [lookup_loc].
    rewrite Hfs, <- Hb. replace wc with (clean_previous_builds host wb).2
      by (by rewrite Hc).
    apply (clean_patterns_frame host cleanup_patterns cleanup_patterns_not_dotdot).
    intros n Hn Hpre. apply (Hclear n Hn). by etrans. }
  unfold fs_is_dir, stat, namei in *. unfold plain_location in Hag.
  rewrite (walk_agree f1) by done.
  destruct (walk f1 _ _) as [e|l] eqn:Hw; [done|].
  apply walk_plain in Hw as ->; [|done].
  by rewrite Hag.
Qed.

Lemma output_dir_survives_witness :
  fs_is_dir
    (fs (reach_build (colab_host [script_name; "out/wheels"] (Some a100_torch) healthy_child)
           colab_world).2)
    repo (Path "out/wheels") = true.
Proof.
  apply (output_dir_survives_cleanup
           (colab_host [script_name; "out/wheels"] (Some a100_torch) healthy_child)
           colab_world _ ("out/wheels", Path "out/wheels")).
  - vm_compute. reflexivity.
  - vm_compute. intros H. repeat (apply elem_of_cons in H as [H|H]; [discriminate|]).
    by apply elem_of_nil in H.
  - intros n Hn Hp. apply prefix_snoc_inv in Hp as [_ Hp].
    vm_compute in Hp. injection Hp as <-. vm_compute in Hn. discriminate.
Defined.

(** ** The exceptions that leave [main] *)

Lemma check_raises (host : Host) (w : World) (e : exn) :
  (check_colab_environment host w).1 = Raise e → e = SystemExit 1.
Proof.
  unfold check_colab_environment, import_google_colab, import_torch.
  unfold try_except, mbind, M_bind, bind, print, sys_exit, raise, ret, log.
  destruct host as [argv exe ver colab t cwd run fmt sz]; cbn.
  destruct colab, t as [[tv [[c d]|]]|]; cbn.
  all: unfold environ_get, environ; cbn.
  all: destruct (default ∅ (dicts w !! os_environ) !! "CUDA_HOME") as [[|c0 s0]|]; cbn.
  all: congruence.
Qed.

Lemma reach_install_raises (host : Host) (w : World) (e : exn) :
  (reach_install host w).1 = Raise e → e = SystemExit 1.
Proof.
  unfold reach_install. unfold_monad.
  destruct (decide _) as [Hlt|Hge]; [unfold print; cbn; congruence|].
  unfold print at 1. cbn.
  destruct (sys_argv host !! 1) as [od|] eqn:Hod.
  2: { apply lookup_ge_None in Hod. lia. }
  unfold print. cbn [fst snd].
  match goal with |- context [check_colab_environment host ?w1] =>
    pose proof (check_raises host w1 e) as Hc;
    destruct (check_colab_environment host w1) as [[[]|e'] w2]
  end; cbn in *; [done|]. intros [= <-]. by apply Hc.
Qed.

Lemma prologue_raises (host : Host) (od : string) (w : World) (e : exn) :
  (build_prologue host od w).1 = Raise e → ∃ en, e = OSError en.
Proof.
  unfold build_prologue, print, path_mkdir. unfold_monad. cbn [fst snd fs log set_fs].
  destruct (mkdir_parents _ _ _) as [en|f1]; [intros [= <-]; eauto|].
  match goal with
  | |- context [clean_previous_builds host ?wb] =>
      destruct (clean_previous_builds_run host wb) as (wc & -> & _)
  end.
  done.
Qed.

Lemma build_attempt_raises (host : Host) (p : PurePath) (w : World) (e : exn) :
  (build_attempt host p w).1 = Raise e →
  match e with SystemExit 1 | OSError _ | SameFileError => True | _ => False end.
Proof.
  destruct (decide ((build_outcome host w).1 = 0%Z)) as [Hrc|Hrc].
  - destruct (built_wheels host w) as [|wheel wheels] eqn:Hwh.
    + rewrite build_attempt_no_wheel by done. by intros [= <-].
    + rewrite (build_attempt_copies _ _ _ _ _ Hrc Hwh).
      destruct (copy_wheels _ _ _ _) as [[[]|e'] w'] eqn:Hc; [done|].
      intros [= <-]. apply copy_wheels_raises in Hc. by destruct e'.
  - rewrite build_attempt_failed by done. by intros [= <-].
Qed.

(** X11. The exceptions that leave [main].  Whatever the machine and the
    children do, a run either returns or ends in [sys.exit(1)], in the
    [CalledProcessError] of one of the four pip commands (with its
    non-zero status), or in an [OSError] or [SameFileError] of a file
    operation.  No [ImportError] and no [IndexError] escapes (the
    imports are guarded by [try], [sys.argv[1]] and [wheels[0]] by the
    checks before them), and the exit status is 0 or 1. *)
Theorem only_expected_errors_escape (host : Host) (w : World) :
  match (main host w).1 with
  | Return _ => True
  | Raise e => may_escape host e
  end ∧
  (exit_status (main host w).1 = 0%Z ∨ exit_status (main host w).1 = 1%Z).
Proof.
  assert (H : match (main host w).1 with
              | Return _ => True
              | Raise e => may_escape host e
              end).
  { rewrite main_install_phases, bind_run.
    pose proof (reach_install_raises host w) as H0.
    destruct (reach_install host w) as [[od|e] w0]; cbn [fst] in *;
      [|by rewrite (H0 e)].
    rewrite bind_run.
    destruct (install_spawned host w0) as (e1 & _ & Hcase).
    destruct (install_build_dependencies host w0) as [[[]|e] w1]; cbn [fst snd] in *.
    2: { destruct Hcase as [[? _]|(ran & dep & rest & rc & Hd & Hne & [= ->] & _)];
           [done|].
         cbn. split; [done|]. exists dep. split; [|done].
         rewrite Hd. apply elem_of_app. right. by left. }
    rewrite bind_run, build_wheel_phases, bind_run.
    pose proof (prologue_raises host od w1) as H2.
    destruct (build_prologue host od w1) as [[p|e] w2]; cbn [fst] in *.
    2: { by destruct (H2 e eq_refl) as [en ->]. }
    pose proof (build_attempt_raises host p w2) as H3.
    destruct (build_attempt host p w2) as [[name|e] w3]; cbn [fst] in *.
    2: { specialize (H3 e eq_refl). destruct e as [c| | | | |]; try done.
         cbn. destruct c as [|[]|]; done. }
    by rewrite report_run. }
  split; [done|].
  destruct (main host w).1 as [[]|e]; [by left|right].
  destruct e; cbn in *; done.
Qed.

(** ** The names the cleanup matches (line 95) *)

Lemma fnmatch_literal (pat name : list ascii) :
  "*"%char ∉ pat → fnmatch_chars pat name = true ↔ name = pat.
Proof.
  revert name. induction pat as [|c pat IH]; intros name Hstar.
  - destruct name; cbn; [done|]. split; discriminate.
  - apply not_elem_of_cons in Hstar as [Hc Hpat]. cbn.
    destruct (Ascii.eqb_spec c "*"%char) as [->|_]; [done|].
    destruct name as [|d name]; [split; discriminate|].
    rewrite andb_true_iff, (IH name Hpat).
    destruct (Ascii.eqb_spec c d) as [->|Hne]; split.
    + by intros [_ ->].
    + by intros [= ->].
    + by intros [? _].
    + intros [= -> _]. done.
Qed.

Lemma fnmatch_star_literal (lit name : list ascii) :
  "*"%char ∉ lit →
  fnmatch_chars ("*"%char :: lit) name = true ↔ ∃ pre, name = pre ++ lit.
Proof.
  intros Hstar. cbn [fnmatch_chars]. rewrite Ascii.eqb_refl.
  induction name as [|d name IH].
  - rewrite orb_false_r, (fnmatch_literal lit [] Hstar). split.
    + intros <-. by exists [].
    + intros (pre & H). symmetry in H. by apply app_eq_nil in H as [_ ->].
  - rewrite orb_true_iff, (fnmatch_literal lit (d :: name) Hstar), IH. split.
    + intros [<-|(pre & ->)]; [by exists []|by exists (d :: pre)].
    + intros ([|d' pre] & H); [by left|right].
      injection H as -> ->. by exists pre.
Qed.

Lemma list_ascii_of_string_app (s t : string) :
  list_ascii_of_string (s +:+ t) = list_ascii_of_string s ++ list_ascii_of_string t.
Proof.
  induction s as [|c s IH]; [done|].
  change (String c s +:+ t) with (String c (s +:+ t)).
  cbn [list_ascii_of_string]. by rewrite IH.
Qed.

(** X12. The names the cleanup matches.  An entry of the working
    directory is taken for a leftover of an earlier build exactly when
    its name is ['build'] or ['dist'] or ends in ['.egg-info'] (hidden
    names included: the pattern's ['*'] also matches an empty or a
    dotted beginning). *)
Theorem stale_names_are (n : string) :
  stale_name n = true ↔
  n = "build" ∨ n = "dist" ∨ ∃ s, n = s +:+ ".egg-info".
Proof.
  unfold stale_name, cleanup_patterns. cbn [existsb].
  rewrite orb_false_r, !orb_true_iff. unfold fnmatch.
  assert (Hinj : ∀ t, list_ascii_of_string n = list_ascii_of_string t ↔ n = t).
  { intros t. split; [|by intros ->]. intros H.
    by rewrite <- (string_of_list_ascii_of_string n), H, string_of_list_ascii_of_string. }
  change (list_ascii_of_string "*.egg-info")
    with ("*"%char :: list_ascii_of_string ".egg-info").
  rewrite (fnmatch_literal (list_ascii_of_string "build")),
    (fnmatch_literal (list_ascii_of_string "dist")), fnmatch_star_literal, !Hinj.
  2-4: vm_compute; intros H;
    repeat (apply elem_of_cons in H as [H|H]; [discriminate|]);
    by apply elem_of_nil in H.
  apply or_iff_compat_l, or_iff_compat_l. split.
  - intros (pre & H). exists (string_of_list_ascii pre). apply Hinj.
    by rewrite list_ascii_of_string_app, list_ascii_of_string_of_list_ascii.
  - intros (s & ->). exists (list_ascii_of_string s).
    by rewrite list_ascii_of_string_app.
Qed.
